(** * lumos: terminal background colour detection

    A shallow embedding of [lumos.py] and the properties of its three
    stages: the terminal probe ([query_bg_from_terminal]), the colour
    parser ([parse_rgb]) and the luminance classifier ([luminance] and
    the module body).

    Conventions of the embedding.
    - A Python [str] and a Python [bytes] are both sequences of 8-bit
      characters ([string]).  [parse_rgb] only ever receives the result
      of [decode("ascii", "ignore")], so 8-bit characters cover its
      inputs; the character classes below are nevertheless the ones
      CPython uses on the whole Latin-1 range.
    - A Python [int] is a [Z]; a Python [float] is a binary64 [float].
    - A call that may raise returns a [result]; an uncaught exception
      ends the process with status 1 and nothing on standard output. *)

From Stdlib Require Import ZArith List Ascii String Bool Lia Floats.
Import ListNotations.

Set Warnings "-inexact-float".

Local Open Scope string_scope.
Local Open Scope Z_scope.

(** ** Exceptions and the error monad *)

(** [TermiosError] is [termios.error], which is not an [OSError]. *)
Inductive exn : Set :=
| ValueError
| OverflowError
| IndexError
| ZeroDivisionError
| TypeError
| OSError
| TermiosError.

Inductive result (A : Type) : Type :=
| Ok (a : A)
| Raise (e : exn).

Arguments Ok {A} a.
Arguments Raise {A} e.

Definition bind {A B : Type} (m : result A) (k : A -> result B) : result B :=
  match m with
  | Ok a => k a
  | Raise e => Raise e
  end.

Notation "x <- m ;; k" := (bind m (fun x => k))
  (at level 61, m at next level, right associativity).

(** ** Characters *)

Definition ord (c : ascii) : Z := Z.of_N (N_of_ascii c).

Definition in_range (lo hi n : Z) : bool := (lo <=? n) && (n <=? hi).

(** [Py_ISSPACE]: the C-locale white space used by [int()] on ASCII
    text and by [\s] in a bytes pattern. *)
Definition Py_ISSPACE (c : ascii) : bool :=
  in_range 9 13 (ord c) || (ord c =? 32).

(** [Py_UNICODE_ISSPACE] on Latin-1: what [str.strip()] removes and what
    [\s] matches in a str pattern. *)
Definition Py_UNICODE_ISSPACE (c : ascii) : bool :=
  in_range 9 13 (ord c) || in_range 28 32 (ord c)
  || (ord c =? 133) || (ord c =? 160).

(** The white space [int()] skips around the digits of a [str].  A text
    that is not ASCII is transformed first, each white space of
    [str.isspace] above ASCII becoming a space, and the C-locale white
    space is skipped afterwards; on Latin-1 the characters transformed
    are NEL and the no-break space. *)
Definition int_space (c : ascii) : bool :=
  Py_ISSPACE c || (ord c =? 133) || (ord c =? 160).

(** [\d] in a str pattern; on Latin-1 only the ASCII digits are decimal. *)
Definition is_decimal (c : ascii) : bool := in_range 48 57 (ord c).

(** [_PyLong_DigitValue]: 0-9, then letters of either case from 10 on;
    37 for every other character. *)
Definition digit_value (c : ascii) : Z :=
  let n := ord c in
  if in_range 48 57 n then n - 48
  else if in_range 97 122 n then n - 87
  else if in_range 65 90 n then n - 55
  else 37.

Definition is_hex (c : ascii) : bool := digit_value c <? 16.

(** ** Strings *)

Definition is_empty (s : string) : bool :=
  match s with
  | EmptyString => true
  | String _ _ => false
  end.

Fixpoint all_chars (p : ascii -> bool) (s : string) : bool :=
  match s with
  | EmptyString => true
  | String c r => p c && all_chars p r
  end.

Fixpoint drop_while (p : ascii -> bool) (s : string) : string :=
  match s with
  | EmptyString => EmptyString
  | String c r => if p c then drop_while p r else s
  end.

Fixpoint take_while (p : ascii -> bool) (s : string) : string :=
  match s with
  | EmptyString => EmptyString
  | String c r => if p c then String c (take_while p r) else EmptyString
  end.

Fixpoint rstrip (s : string) : string :=
  match s with
  | EmptyString => EmptyString
  | String c r =>
      let r' := rstrip r in
      if is_empty r' && Py_UNICODE_ISSPACE c then EmptyString
      else String c r'
  end.

(** [s.strip()] *)
Definition strip (s : string) : string :=
  rstrip (drop_while Py_UNICODE_ISSPACE s).

Fixpoint drop (n : nat) (s : string) : string :=
  match n, s with
  | O, _ => s
  | S n', String _ r => drop n' r
  | S _, EmptyString => EmptyString
  end.

(** [s.startswith(p)] *)
Fixpoint startswith (s p : string) {struct p} : bool :=
  match p with
  | EmptyString => true
  | String c p' =>
      match s with
      | String d s' => Ascii.eqb d c && startswith s' p'
      | EmptyString => false
      end
  end.

(** [s.split(sep)] for a one-character separator. *)
Fixpoint split (sep : ascii) (s : string) : list string :=
  match s with
  | EmptyString => [EmptyString]
  | String c r =>
      if Ascii.eqb c sep then EmptyString :: split sep r
      else match split sep r with
           | w :: ws => String c w :: ws
           | [] => [String c EmptyString]
           end
  end.

(** [s.split(sep, 1)] for a one-character separator. *)
Fixpoint split1 (sep : ascii) (s : string) : list string :=
  match s with
  | EmptyString => [EmptyString]
  | String c r =>
      if Ascii.eqb c sep then [EmptyString; r]
      else match split1 sep r with
           | w :: ws => String c w :: ws
           | [] => [String c EmptyString]
           end
  end.

(** ** [int(x, base)]

    CPython's [PyLong_FromString]: leading white space ([int_space]), an
    optional sign, for base 16 an optional [0x] or [0X] that may be
    followed by one underscore, then digits separated by single
    underscores, then trailing white space up to the end of the text.
    Anything else is a [ValueError].  For a base that is not a power
    of two the number of digit characters is limited. *)

Definition int_max_str_digits : nat := 4300.

(** The digit loop of [long_from_string_base]: the value read so far,
    the number of digits, the previous character and what is left; [None]
    on a doubled underscore. *)
Fixpoint scan_digits (base : Z) (s : string) (prev : ascii) (acc : Z)
    (digits : nat) : option (Z * nat * ascii * string) :=
  match s with
  | EmptyString => Some (acc, digits, prev, s)
  | String c r =>
      if digit_value c <? base then
        scan_digits base r c (acc * base + digit_value c) (S digits)
      else if Ascii.eqb c "_" then
        if Ascii.eqb prev "_" then None
        else scan_digits base r c acc digits
      else Some (acc, digits, prev, s)
  end.

Definition skip_radix_prefix (base : Z) (s : string) : string :=
  match s with
  | String "0" (String c r) =>
      if (base =? 16) && (Ascii.eqb c "x" || Ascii.eqb c "X") then
        match r with
        | String "_" r' => r'
        | _ => r
        end
      else s
  | _ => s
  end.

Definition is_binary_base (base : Z) : bool :=
  Z.land base (base - 1) =? 0.

Definition take_sign (s : string) : Z * string :=
  match s with
  | String "+" r => (1, r)
  | String "-" r => (-1, r)
  | _ => (1, s)
  end.

Definition leading_underscore (s : string) : bool :=
  match s with
  | String c _ => Ascii.eqb c "_"
  | EmptyString => false
  end.

Definition py_int (x : string) (base : Z) : result Z :=
  let '(sign, s) := take_sign (drop_while int_space x) in
  let s := skip_radix_prefix base s in
  if leading_underscore s then Raise ValueError
  else
    match scan_digits base s "000" 0 O with
    | None => Raise ValueError
    | Some (n, digits, prev, rest) =>
        if Ascii.eqb prev "_" then Raise ValueError
        else if (digits =? 0)%nat then Raise ValueError
        else if negb (is_empty (drop_while int_space rest)) then
          Raise ValueError
        else if negb (is_binary_base base)
                && (int_max_str_digits <? digits)%nat then
          Raise ValueError
        else Ok (sign * n)
    end.

(** ** Floats

    [int / int] is CPython's [long_true_divide]: two operands below
    [2 ^ 53] in magnitude are converted exactly and divided in hardware,
    any others go through the correctly rounded division of the exact
    integers, which raises [OverflowError] when the quotient does not fit.
    [int] to [float] is the correctly rounded conversion, which raises
    likewise.  [round(x)] rounds half to even and yields an [int]. *)

Definition Z2SF (z : Z) : spec_float :=
  match z with
  | Z0 => S754_zero false
  | Zpos p => S754_finite false p 0
  | Zneg p => S754_finite true p 0
  end.

Definition is_small (a : Z) : bool := Z.abs a <? 2 ^ 53.

(** An integer below [2 ^ 53] in magnitude is a float. *)
Definition float_of_small (a : Z) : float :=
  let x := of_uint63 (Uint63.of_Z (Z.abs a)) in
  if a <? 0 then (- x)%float else x.

Definition int_truediv (a b : Z) : result float :=
  if b =? 0 then Raise ZeroDivisionError
  else if is_small a && is_small b then
    Ok (float_of_small a / float_of_small b)%float
  else
    let q := SF2Prim (SFdiv prec emax (Z2SF a) (Z2SF b)) in
    if is_infinity q then Raise OverflowError else Ok q.

Definition float_of_int (a : Z) : result float :=
  if is_small a then Ok (float_of_small a)
  else
    let x := SF2Prim (binary_normalize prec emax a 0 false) in
    if is_infinity x then Raise OverflowError else Ok x.

(** Nearest integer to [m * 2 ^ e], ties to the even one. *)
Definition round_half_even (m e : Z) : Z :=
  if 0 <=? e then Z.shiftl m e
  else
    let k := - e in
    let q := Z.shiftr m k in
    match (2 * Z.land m (Z.ones k)) ?= Z.shiftl 1 k with
    | Lt => q
    | Gt => q + 1
    | Eq => if Z.even q then q else q + 1
    end.

Definition py_round (x : float) : result Z :=
  match Prim2SF x with
  | S754_zero _ => Ok 0
  | S754_finite s m e =>
      let n := round_half_even (Zpos m) e in
      Ok (if s then - n else n)
  | S754_infinity _ => Raise OverflowError
  | S754_nan => Raise ValueError
  end.

(** ** [parse_rgb] *)

Definition hex_2_digit_max : nat := 2.

(** The inner function [h] of [parse_rgb]. *)
Definition h (x : string) : result Z :=
  n <- py_int x 16 ;;
  if (String.length x =? hex_2_digit_max)%nat then Ok n
  else
    q <- int_truediv n 65535 ;;
    py_round (q * 255)%float.

(** [re.match(r"rgb\((\d+),\s*(\d+),\s*(\d+)\)", s)] and its groups.
    Digits, the comma, white space and the parenthesis are pairwise
    disjoint classes, so each greedy repetition has one way to match
    and the backtracking search is this left-to-right scan. *)
Definition re_match_rgb_call (s : string)
    : option (string * string * string) :=
  if negb (startswith s "rgb(") then None
  else
    let s := drop 4 s in
    let r := take_while is_decimal s in
    match drop_while is_decimal s with
    | String "," s =>
        let s := drop_while Py_UNICODE_ISSPACE s in
        let g := take_while is_decimal s in
        match drop_while is_decimal s with
        | String "," s =>
            let s := drop_while Py_UNICODE_ISSPACE s in
            let b := take_while is_decimal s in
            match drop_while is_decimal s with
            | String ")" _ =>
                if is_empty r || is_empty g || is_empty b then None
                else Some (r, g, b)
            | _ => None
            end
        | _ => None
        end
    | _ => None
    end.

Definition rgb_triple : Type := Z * Z * Z.

Definition parse_rgb (s : string) : result (option rgb_triple) :=
  let s := strip s in
  if startswith s "rgb:" || startswith s "rgba:" then
    match nth_error (split1 ":" s) 1 with
    | None => Raise IndexError
    | Some payload =>
        let parts := split "/" payload in
        match firstn 3 parts with
        | [r; g; b] =>
            r' <- h r ;; g' <- h g ;; b' <- h b ;;
            Ok (Some (r', g', b'))
        | _ => Raise ValueError
        end
    end
  else if startswith s "#"
          && ((String.length s =? 7)%nat || (String.length s =? 9)%nat) then
    r' <- py_int (substring 1 2 s) 16 ;;
    g' <- py_int (substring 3 2 s) 16 ;;
    b' <- py_int (substring 5 2 s) 16 ;;
    Ok (Some (r', g', b'))
  else
    match re_match_rgb_call s with
    | Some (r, g, b) =>
        r' <- py_int r 10 ;; g' <- py_int g 10 ;; b' <- py_int b 10 ;;
        Ok (Some (r', g', b'))
    | None => Ok None
    end.

(** ** [luminance] and the classification

    [x ** y] on floats is CPython's [float_pow]: it settles the special
    cases itself and leaves a finite positive base other than one with a
    finite exponent other than zero to the platform's [pow], whose
    result and [errno] the embedding takes as a parameter. *)

Inductive errno : Set := ENONE | ERANGE | EDOM.

Definition is_integer (x : float) : bool :=
  match Prim2SF x with
  | S754_zero _ => true
  | S754_finite _ m e => (0 <=? e) || (Zpos m mod 2 ^ (- e) =? 0)
  | _ => false
  end.

(** [DOUBLE_IS_ODD_INTEGER] *)
Definition is_odd_integer (x : float) : bool :=
  match Prim2SF x with
  | S754_finite _ m e =>
      if 0 <? e then false
      else (Zpos m mod 2 ^ (- e) =? 0) && Z.odd (Zpos m / 2 ^ (- e))
  | _ => false
  end.

Definition copysign_zero (x : float) : float :=
  if get_sign x then neg_zero else zero.

Section Classifier.

Variable libm_pow : float -> float -> float * errno.

Definition platform_pow (iv iw : float) (negate_result : bool)
    : result float :=
  let '(ix, err) := libm_pow iv iw in
  (* _Py_ADJUST_ERANGE1 *)
  let err :=
    match err with
    | ENONE => if is_infinity ix then ERANGE else ENONE
    | ERANGE => if is_zero ix then ENONE else ERANGE
    | EDOM => EDOM
    end in
  let ix := if negate_result then (- ix)%float else ix in
  match err with
  | ENONE => Ok ix
  | ERANGE => Raise OverflowError
  | EDOM => Raise ValueError
  end.

Definition float_pow (iv iw : float) : result float :=
  if (iw =? 0)%float then Ok 1%float
  else if is_nan iv then Ok iv
  else if is_nan iw then Ok (if (iv =? 1)%float then 1%float else iw)
  else if is_infinity iw then
    let iv := abs iv in
    if (iv =? 1)%float then Ok 1%float
    else if Bool.eqb (0 <? iw)%float (1 <? iv)%float then Ok (abs iw)
    else Ok 0%float
  else if is_infinity iv then
    let iw_is_odd := is_odd_integer iw in
    if (0 <? iw)%float then Ok (if iw_is_odd then iv else abs iv)
    else Ok (if iw_is_odd then copysign_zero iv else 0%float)
  else if (iv =? 0)%float then
    if (iw <? 0)%float then Raise ZeroDivisionError
    else Ok (if is_odd_integer iw then iv else 0%float)
  else if (iv <? 0)%float && negb (is_integer iw) then
    (* the power is complex; comparing it with the threshold fails *)
    Raise TypeError
  else
    let negate_result := (iv <? 0)%float && is_odd_integer iw in
    let iv := if (iv <? 0)%float then (- iv)%float else iv in
    if (iv =? 1)%float then
      Ok (if negate_result then (-1)%float else 1%float)
    else platform_pow iv iw negate_result.

Definition srgb_threshold : float := 0.04045.

(** The inner function [lin] of [luminance]. *)
Definition lin (c : float) : result float :=
  if (c <=? srgb_threshold)%float then Ok (c / 12.92)%float
  else float_pow ((c + 0.055) / 1.055)%float 2.4%float.

Definition normalize (c : Z) : result float :=
  x <- float_of_int c ;; Ok (x / 255.0)%float.

Definition luminance (rgb : rgb_triple) : result float :=
  let '(r, g, b) := rgb in
  r <- normalize r ;; g <- normalize g ;; b <- normalize b ;;
  lr <- lin r ;; lg <- lin g ;; lb <- lin b ;;
  Ok (0.2126 * lr + 0.7152 * lg + 0.0722 * lb)%float.

Definition DARK_THRESHOLD : float := 0.5.


End Classifier.

(** ** The terminal and the probe

    The controlling terminal is an oracle ([terminal]): whether
    [/dev/tty] opens, the mode it is in, whether the write goes through
    and what the i-th readiness wait finds.  The device itself is a state
    ([device]) that the probe threads through its calls; every call is
    logged with the mode in force when it was made, most recent first.
    [tcgetattr], [tcsetattr] and [close] on the open terminal are taken
    to succeed here; the module [Faulty] further down lets them fail.  A
    failing write, wait or read raises [OSError]; no statement depends on
    the type of the exception of a wait or a read.  The list
    [termios.tcgetattr] returns has seven fixed positions and is a record
    here; position 3 is [c_lflag]. *)

Record termios_attr : Type := {
  c_iflag : Z;
  c_oflag : Z;
  c_cflag : Z;
  c_lflag : Z;
  c_ispeed : Z;
  c_ospeed : Z;
  c_cc : list Z
}.

Definition set_lflag (a : termios_attr) (l : Z) : termios_attr :=
  {| c_iflag := c_iflag a; c_oflag := c_oflag a; c_cflag := c_cflag a;
     c_lflag := l; c_ispeed := c_ispeed a; c_ospeed := c_ospeed a;
     c_cc := c_cc a |}.

Inductive read_reply : Type :=
| Data (b : string)
| ReadError.

Inductive poll_reply : Type :=
| NotReady
| Ready (r : read_reply)
| SelectError.

Record terminal : Type := {
  tty_opens : bool;
  tty_attr : termios_attr;
  tty_write_ok : bool;
  tty_poll : nat -> poll_reply
}.

Inductive event : Type :=
| EvOpen
| EvSetAttr (a : termios_attr)
| EvWrite (data : string)
| EvSelect (timeout : float)
| EvRead (size : nat)
| EvClose.

Record device : Type := {
  dev_mode : termios_attr;
  dev_open : bool;
  dev_log : list (event * termios_attr)
}.

Definition log (e : event) (d : device) : device :=
  {| dev_mode := dev_mode d; dev_open := dev_open d;
     dev_log := (e, dev_mode d) :: dev_log d |}.

Definition io (A : Type) : Type := device -> result A * device.

Definition ret {A : Type} (a : A) : io A := fun d => (Ok a, d).

Definition raise {A : Type} (e : exn) : io A := fun d => (Raise e, d).

Definition io_bind {A B : Type} (m : io A) (k : A -> io B) : io B :=
  fun d =>
    match m d with
    | (Ok a, d') => k a d'
    | (Raise e, d') => (Raise e, d')
    end.

Notation "x <~ m ;; k" := (io_bind m (fun x => k))
  (at level 61, m at next level, right associativity).

(** [try: body finally: cleanup] *)
Definition try_finally {A : Type} (body : io A) (cleanup : io unit) : io A :=
  fun d =>
    let '(r, d1) := body d in
    match cleanup d1 with
    | (Ok _, d2) => (r, d2)
    | (Raise e, d2) => (Raise e, d2)
    end.

Definition os_open (t : terminal) : io unit :=
  fun d =>
    if tty_opens t then
      (Ok tt, log EvOpen {| dev_mode := dev_mode d; dev_open := true;
                            dev_log := dev_log d |})
    else (Raise OSError, d).

Definition tcgetattr : io termios_attr :=
  fun d => (Ok (dev_mode d), d).

Definition tcsetattr (a : termios_attr) : io unit :=
  fun d =>
    (Ok tt, {| dev_mode := a; dev_open := dev_open d;
               dev_log := (EvSetAttr a, dev_mode d) :: dev_log d |}).

Definition os_write (t : terminal) (data : string) : io unit :=
  fun d =>
    let d := log (EvWrite data) d in
    if tty_write_ok t then (Ok tt, d) else (Raise OSError, d).

(** [select.select([fd], [], [], timeout)]: is the first list non-empty? *)
Definition select (t : terminal) (i : nat) (timeout : float) : io bool :=
  fun d =>
    let d := log (EvSelect timeout) d in
    match tty_poll t i with
    | NotReady => (Ok false, d)
    | Ready _ => (Ok true, d)
    | SelectError => (Raise OSError, d)
    end.

Fixpoint take (n : nat) (s : string) : string :=
  match n, s with
  | S n', String c r => String c (take n' r)
  | _, _ => EmptyString
  end.

(** [os.read(fd, size)] after the i-th wait found the device readable. *)
Definition os_read (t : terminal) (i : nat) (size : nat) : io string :=
  fun d =>
    let d := log (EvRead size) d in
    match tty_poll t i with
    | Ready (Data b) => (Ok (take size b), d)
    | Ready ReadError => (Raise OSError, d)
    | _ => (Ok EmptyString, d)
    end.

Definition os_close : io unit :=
  fun d =>
    (Ok tt, log EvClose {| dev_mode := dev_mode d; dev_open := false;
                           dev_log := dev_log d |}).

Definition BEL : ascii := "007".
Definition ESC : ascii := "027".

(** [needle in s] for a one- or two-byte needle. *)
Fixpoint contains_byte (c : ascii) (s : string) : bool :=
  match s with
  | EmptyString => false
  | String x r => Ascii.eqb x c || contains_byte c r
  end.

Fixpoint contains_pair (c1 c2 : ascii) (s : string) : bool :=
  match s with
  | String x ((String y _) as r) =>
      (Ascii.eqb x c1 && Ascii.eqb y c2) || contains_pair c1 c2 r
  | _ => false
  end.

(** Line 52: BEL or ST in the buffer. *)
Definition has_terminator (buf : string) : bool :=
  contains_byte BEL buf || contains_pair ESC "\" buf.

(** The query of line 45. *)
Definition osc11_query : string :=
  String ESC ("]11;?" ++ String BEL EmptyString).

(** Lines 47 to 53: [n] iterations are left, [i] have been made. *)
Fixpoint poll_loop (t : terminal) (n i : nat) (buf : string) : io string :=
  match n with
  | O => ret buf
  | S n' =>
      r <~ select t i 0.02%float ;;
      if negb r then poll_loop t n' (S i) buf
      else
        chunk <~ os_read t i 4096 ;;
        let buf := buf ++ chunk in
        if has_terminator buf then ret buf
        else poll_loop t n' (S i) buf
  end.

(** The search of line 57 and its group 1.  The bytes pattern reads: a
    closing square bracket, any run of white space, the text [11;] and,
    as group 1, the longest run of bytes other than BEL and ESC.  White
    space and the digit 1 are disjoint, so the greedy run of white space
    has one way to match; the search takes the leftmost position that
    matches. *)
Definition not_terminator (c : ascii) : bool :=
  negb (Ascii.eqb c BEL || Ascii.eqb c ESC).

Definition re_match_osc11 (s : string) : option string :=
  match s with
  | String "]" r =>
      let r := drop_while Py_ISSPACE r in
      if startswith r "11;" then Some (take_while not_terminator (drop 3 r))
      else None
  | _ => None
  end.

Fixpoint re_search_osc11 (s : string) : option string :=
  match re_match_osc11 s with
  | Some g => Some g
  | None =>
      match s with
      | EmptyString => None
      | String _ r => re_search_osc11 r
      end
  end.

(** [b.decode("ascii", "ignore")] *)
Fixpoint decode_ascii_ignore (b : string) : string :=
  match b with
  | EmptyString => EmptyString
  | String c r =>
      if ord c <? 128 then String c (decode_ascii_ignore r)
      else decode_ascii_ignore r
  end.

(** Lines 57 and 58: the colour spec in the raw reply, if any. *)
Definition extract_reply (buf : string) : option string :=
  option_map decode_ascii_ignore (re_search_osc11 buf).

Section Probe.

Variables ICANON ECHO : Z.

(** Lines 41 and 42: a copy of the captured list with position 3 masked;
    the captured list itself is not written to. *)
Definition raw_mode (old : termios_attr) : termios_attr :=
  set_lflag old (Z.land (c_lflag old) (Z.lnot (Z.lor ICANON ECHO))).

(** Lines 45 to 53: the body of the [try]. *)
Definition exchange (t : terminal) : io string :=
  _ <~ os_write t osc11_query ;;
  poll_loop t 100 0 EmptyString.

(** Lines 40 to 56: what runs once the device is open. *)
Definition probe (t : terminal) : io string :=
  old <~ tcgetattr ;;
  let new := raw_mode old in
  _ <~ tcsetattr new ;;
  try_finally (exchange t) (_ <~ tcsetattr old ;; os_close).

Definition query_bg_from_terminal (t : terminal) : io (option string) :=
  fun d =>
    match os_open t d with
    | (Raise _, d') => (Ok None, d')
    | (Ok _, d') =>
        (buf <~ probe t ;;
         ret (extract_reply buf)) d'
    end.

End Probe.

(** ** The module body *)

Record outcome : Type := {
  stdout : string;
  exit_status : Z
}.

(** The device before the program runs: closed, in the terminal's mode. *)
Definition boot (t : terminal) : device :=
  {| dev_mode := tty_attr t; dev_open := false; dev_log := [] |}.

Section Program.

Variables ICANON ECHO : Z.
Variable libm_pow : float -> float -> float * errno.

(** Lines 115 to 127, from the reply on: the outcome of a run that
    reaches [sys.exit]. *)
Definition report (reply : option string) : result outcome :=
  rgb <- match reply with
         | Some s => if is_empty s then Ok None else parse_rgb s
         | None => Ok None
         end ;;
  match rgb with
  | Some c =>
      lum <- luminance libm_pow c ;;
      Ok {| stdout := if (lum <? DARK_THRESHOLD)%float then "dark"
                      else "light";
            exit_status := 0 |}
  | None => Ok {| stdout := "unknown"; exit_status := 2 |}
  end.

(** An exception nobody catches: the interpreter prints the traceback on
    the error stream and the status is 1. *)
Definition uncaught : outcome := {| stdout := ""; exit_status := 1 |}.

Definition main (t : terminal) : outcome :=
  match fst (query_bg_from_terminal ICANON ECHO t (boot t)) with
  | Raise _ => uncaught
  | Ok reply =>
      match report reply with
      | Raise _ => uncaught
      | Ok o => o
      end
  end.

End Program.

(** ** Specification-side notions

    What the claims speak of, written independently of the code: the
    value of a run of hex digits, the nearest integer to an exact
    quotient, and the bytes the first [k] polls hand over. *)

Fixpoint hex_value_from (acc : Z) (s : string) : Z :=
  match s with
  | EmptyString => acc
  | String c r => hex_value_from (16 * acc + digit_value c) r
  end.

Definition hex_value (s : string) : Z := hex_value_from 0 s.

(** Nearest integer to [num / den] for [0 < den], ties to even. *)
Definition round_ratio (num den : Z) : Z :=
  let '(q, r) := Z.div_eucl num den in
  match (2 * r) ?= den with
  | Lt => q
  | Gt => q + 1
  | Eq => if Z.even q then q else q + 1
  end.

(** [round(n / 65535 * 255)] over the rationals. *)
Definition scale16 (n : Z) : Z := round_ratio (n * 255) 65535.

(** [round(n / (2^(4 * digits) - 1) * 255)] over the rationals. *)
Definition scale_native (x : string) : Z :=
  round_ratio (hex_value x * 255)
              (2 ^ (4 * Z.of_nat (String.length x)) - 1).

(** A token made of [n] hex digits. *)
Definition hex_token (n : nat) (x : string) : Prop :=
  all_chars is_hex x = true /\ String.length x = n.

Definition no_slash (x : string) : bool :=
  all_chars (fun c => negb (Ascii.eqb c "/")) x.

(** What [parse_rgb] makes of three channel tokens. *)
Definition channels (r g b : string) : result (option rgb_triple) :=
  r' <- h r ;; g' <- h g ;; b' <- h b ;; Ok (Some (r', g', b')).

(** The channel a token of two or four hex digits stands for. *)
Definition channel_value (x : string) : Z :=
  if (String.length x =? 2)%nat then hex_value x else scale16 (hex_value x).

(** The last character of [s], or [prev] when [s] is empty. *)
Fixpoint last_char (prev : ascii) (s : string) : ascii :=
  match s with
  | EmptyString => prev
  | String c r => last_char c r
  end.

(** The rescaling step of [h] on the integer it read. *)
Definition rescale (n : Z) : result Z :=
  q <- int_truediv n 65535 ;; py_round (q * 255)%float.

Definition rescale_agrees (n : Z) : bool :=
  match rescale n with
  | Ok v => (v =? scale16 n) && in_range 0 255 v
  | Raise _ => false
  end.

(** [p] on every integer of [lo, lo + 2 ^ k). *)
Fixpoint all_range (p : Z -> bool) (k : nat) (lo : Z) : bool :=
  match k with
  | O => p lo
  | S k' => all_range p k' lo && all_range p k' (lo + 2 ^ Z.of_nat k')
  end.

(** ** The polling loop, seen from outside *)

(** What the poll answered with [r] adds to the buffer. *)
Definition chunk_of (r : poll_reply) : string :=
  match r with
  | Ready (Data b) => take 4096 b
  | _ => EmptyString
  end.

(** The bytes the first [k] polls hand over. *)
Fixpoint collected (t : terminal) (k : nat) : string :=
  match k with
  | O => EmptyString
  | S k' => collected t k' ++ chunk_of (tty_poll t k')
  end.

Definition poll_fails (r : poll_reply) : bool :=
  match r with
  | SelectError | Ready ReadError => true
  | _ => false
  end.

(** The number of readiness waits made when [n] iterations are left and
    [i] have been made without meeting a terminator. *)
Fixpoint polls (t : terminal) (n i : nat) : nat :=
  match n with
  | O => O
  | S n' =>
      match tty_poll t i with
      | NotReady => S (polls t n' (S i))
      | Ready (Data _) =>
          if has_terminator (collected t (S i)) then 1%nat
          else S (polls t n' (S i))
      | _ => 1%nat
      end
  end.

(** A buffer that holds a terminator, in the words of the
    specification: a BEL byte somewhere, or an ESC byte directly followed
    by a backslash. *)
Definition terminated (buf : string) : Prop :=
  exists a b,
    buf = a ++ String BEL b \/ buf = a ++ String ESC (String "\" b).

(** The timeouts of the readiness waits of a log. *)
Fixpoint select_timeouts (l : list (event * termios_attr)) : list float :=
  match l with
  | [] => []
  | (EvSelect x, _) :: l' => x :: select_timeouts l'
  | _ :: l' => select_timeouts l'
  end.

(** The calls made between the two [tcsetattr]. *)
Definition is_exchange_event (e : event) : bool :=
  match e with
  | EvWrite _ | EvSelect _ | EvRead _ => true
  | _ => false
  end.

(** ** Sample terminals *)

Definition sample_attr : termios_attr :=
  {| c_iflag := 17664; c_oflag := 5; c_cflag := 191; c_lflag := 35387;
     c_ispeed := 15; c_ospeed := 15; c_cc := [3; 28; 127; 21; 4; 0; 1] |}.

(** A terminal that answers the query with [reply] at the third poll. *)
Definition tty_replying (reply : string) : terminal :=
  {| tty_opens := true; tty_attr := sample_attr; tty_write_ok := true;
     tty_poll := fun i => match i with
                          | 2%nat => Ready (Data reply)
                          | _ => NotReady
                          end |}.

(** A terminal that never answers. *)
Definition tty_silent : terminal :=
  {| tty_opens := true; tty_attr := sample_attr; tty_write_ok := true;
     tty_poll := fun _ => NotReady |}.

(** A terminal on which the write fails. *)
Definition tty_write_fails : terminal :=
  {| tty_opens := true; tty_attr := sample_attr; tty_write_ok := false;
     tty_poll := fun _ => NotReady |}.

(** An OSC 11 reply ended by BEL. *)
Definition osc11_reply (spec : string) : string :=
  String ESC ("]11;" ++ spec ++ String BEL EmptyString).

(** A terminal whose reply ends with the String Terminator and comes in
    two reads, the ESC of the terminator at the end of the first one and
    its backslash in the second. *)
Definition tty_split_st : terminal :=
  {| tty_opens := true; tty_attr := sample_attr; tty_write_ok := true;
     tty_poll := fun i =>
                   match i with
                   | 1%nat =>
                       Ready (Data (String ESC ("]11;#000000"
                                                ++ String ESC EmptyString)))
                   | 3%nat => Ready (Data "\")
                   | _ => NotReady
                   end |}.

(** What a stretch of the exchange leaves of the device: the mode and the
    handle as they were, and a log extended by [xs]. *)
Definition extends (d d' : device) (xs : list (event * termios_attr))
    : Prop :=
  dev_mode d' = dev_mode d /\ dev_open d' = dev_open d
  /\ dev_log d' = (xs ++ dev_log d)%list
  /\ Forall (fun em => is_exchange_event (fst em) = true
                       /\ snd em = dev_mode d) xs.

(** ** The luminance, in the words of the specification *)

(** The value of [x ** y], a NaN where Python raises. *)
Definition python_pow (libm_pow : float -> float -> float * errno)
    (x y : float) : float :=
  match float_pow libm_pow x y with
  | Ok v => v
  | Raise _ => nan
  end.

(** A channel of 0..255 divided by 255. *)
Definition channel_level (c : Z) : float :=
  (float_of_small c / 255.0)%float.

(** Linearise: [c / 12.92] up to 0.04045, else
    [((c + 0.055) / 1.055) ^ 2.4]. *)
Definition spec_lin (pw : float -> float -> float) (c : float) : float :=
  if (c <=? 0.04045)%float then (c / 12.92)%float
  else pw ((c + 0.055) / 1.055)%float 2.4%float.

(** The weighted sum of the linearised channels. *)
Definition relative_luminance (pw : float -> float -> float)
    (rgb : rgb_triple) : float :=
  let '(r, g, b) := rgb in
  (0.2126 * spec_lin pw (channel_level r)
   + 0.7152 * spec_lin pw (channel_level g)
   + 0.0722 * spec_lin pw (channel_level b))%float.

(** The base [lin] raises to the power 2.4 for a channel. *)
Definition channel_base (c : Z) : float :=
  ((channel_level c + 0.055) / 1.055)%float.

(** Where a channel of 0..255 goes in [lin] and [float_pow]: the linear
    branch, or a base that is an ordinary positive number, equal to one
    or left to the platform's [pow]. *)
Definition level_ok (c : Z) : bool :=
  if (channel_level c <=? srgb_threshold)%float then true
  else
    let b := channel_base c in
    negb (is_nan b) && negb (is_infinity b) && negb (b =? 0)%float
    && negb (b <? 0)%float.

(** A stand-in for the platform's [pow] in closed examples: the square of
    the base, with no error reported.  Nothing is proved from it about
    the real [pow]. *)
Definition square_pow (x y : float) : float * errno :=
  ((x * x)%float, ENONE).

Definition square_pow_ok (c : Z) : bool :=
  match platform_pow square_pow (channel_base c) 2.4%float false with
  | Ok _ => true
  | Raise _ => false
  end.

(** ** Notions for the further properties

    The bytes a colour spec can be made of, what it means for a raw reply
    to hold the OSC 11 marker, the value of a run of decimal digits,
    encoders for the round trips, and the shape of the calls of the
    polling loop. *)

(** A byte of a colour spec: ASCII, neither BEL nor ESC. *)
Definition payload_char (c : ascii) : bool :=
  (ord c <? 128) && not_terminator c.

Definition not_bracket (c : ascii) : bool := negb (Ascii.eqb c "]").

(** Somewhere in [buf]: a closing bracket, a run of white space, [11;]. *)
Definition has_marker (buf : string) : Prop :=
  exists pre ws rest,
    all_chars Py_ISSPACE ws = true
    /\ buf = pre ++ String "]" (ws ++ "11;" ++ rest).

Fixpoint dec_value_from (acc : Z) (s : string) : Z :=
  match s with
  | EmptyString => acc
  | String c r => dec_value_from (10 * acc + digit_value c) r
  end.

Definition dec_value (s : string) : Z := dec_value_from 0 s.

(** A non-empty run of decimal digits that [int()] accepts: no longer
    than the limit on the digits of a decimal text. *)
Definition dec_token (x : string) : Prop :=
  all_chars is_decimal x = true /\ x <> EmptyString
  /\ (String.length x <= int_max_str_digits)%nat.

(** Lower-case hex digits, and a byte or a 16-bit value written with two
    or four of them. *)
Definition hex_digit (k : Z) : ascii :=
  ascii_of_N (Z.to_N (if k <? 10 then 48 + k else 87 + k)).

Definition hex2 (n : Z) : string :=
  String (hex_digit (n / 16)) (String (hex_digit (n mod 16)) EmptyString).

Definition hex4 (n : Z) : string := hex2 (n / 256) ++ hex2 (n mod 256).

Definition hex2_ok (n : Z) : bool :=
  all_chars is_hex (hex2 n) && (hex_value (hex2 n) =? n).

(** A byte widened to 16 bits by repeating it is [257 * v]. *)
Definition widen_ok (v : Z) : bool := scale16 (257 * v) =? v.

(** The calls of [n] rounds of the polling loop, most recent first: each
    round is a wait of 0.02 s, followed or not by a read of up to 4096
    bytes. *)
Inductive rounds : nat -> list event -> Prop :=
| rounds_nil : rounds 0 []
| rounds_wait (n : nat) (l : list event) :
    rounds n l -> rounds (S n) (EvSelect 0.02%float :: l)
| rounds_read (n : nat) (l : list event) :
    rounds n l -> rounds (S n) (EvRead 4096 :: EvSelect 0.02%float :: l).

(** The calls made on a device, most recent first. *)
Definition calls (d : device) : list event := map fst (dev_log d).

(** The outcome of a run from what the module body computes. *)
Definition finish (r : result outcome) : outcome :=
  match r with
  | Ok o => o
  | Raise _ => uncaught
  end.

(** *** The probe when a call of [termios] or the close fails

    The embedding of the probe above takes [tcgetattr], the two
    [tcsetattr] and [close] to succeed.  Here each of the four calls may
    fail: [termios.tcgetattr] and [termios.tcsetattr] then raise
    [termios.error], [os.close] raises [OSError].  A [tcsetattr] that
    fails leaves the mode as it is; what a failing [close] does to the
    handle is the platform's business and nothing is stated of it.  The
    functions keep their names, in a module; [exchange] is the body of
    the [try] as above. *)

Record faults : Type := {
  getattr_fails : bool;   (* line 40 *)
  set_raw_fails : bool;   (* line 43 *)
  restore_fails : bool;   (* line 55 *)
  close_fails : bool      (* line 56 *)
}.

Definition no_faults : faults :=
  {| getattr_fails := false; set_raw_fails := false;
     restore_fails := false; close_fails := false |}.

Module Faulty.

Definition tcgetattr (fails : bool) : io termios_attr :=
  fun d => if fails then (Raise TermiosError, d) else (Ok (dev_mode d), d).

Definition tcsetattr (fails : bool) (a : termios_attr) : io unit :=
  fun d =>
    if fails then (Raise TermiosError, log (EvSetAttr a) d)
    else
      (Ok tt, {| dev_mode := a; dev_open := dev_open d;
                 dev_log := (EvSetAttr a, dev_mode d) :: dev_log d |}).

Definition os_close (fails : bool) : io unit :=
  fun d =>
    if fails then (Raise OSError, log EvClose d)
    else
      (Ok tt, log EvClose {| dev_mode := dev_mode d; dev_open := false;
                             dev_log := dev_log d |}).

Section Probe.

Variables ICANON ECHO : Z.
Variable f : faults.

(** Lines 40 to 56. *)
Definition probe (t : terminal) : io string :=
  old <~ tcgetattr (getattr_fails f) ;;
  let new := raw_mode ICANON ECHO old in
  _ <~ tcsetattr (set_raw_fails f) new ;;
  try_finally (exchange t)
              (_ <~ tcsetattr (restore_fails f) old ;;
               os_close (close_fails f)).

Definition query_bg_from_terminal (t : terminal) : io (option string) :=
  fun d =>
    match os_open t d with
    | (Raise _, d') => (Ok None, d')
    | (Ok _, d') =>
        (buf <~ probe t ;;
         ret (extract_reply buf)) d'
    end.

End Probe.

End Faulty.

(** No controlling terminal: [/dev/tty] does not open. *)
Definition tty_absent : terminal :=
  {| tty_opens := false; tty_attr := sample_attr; tty_write_ok := true;
     tty_poll := fun _ => NotReady |}.

Fixpoint replicate (n : nat) (c : ascii) : string :=
  match n with
  | O => EmptyString
  | S n' => String c (replicate n' c)
  end.




(** The colour spec an xterm-like terminal reports for a background of
    bytes [r], [g], [b]: three 16-bit channels, each byte repeated. *)
Definition widened_spec (r g b : Z) : string :=
  "rgb:" ++ hex4 (257 * r) ++ "/" ++ hex4 (257 * g) ++ "/"
  ++ hex4 (257 * b).

(** * Properties

    ** Characters and strings *)

Ltac each_char c :=
  destruct c as [[] [] [] [] [] [] [] []].

Lemma hex_char_plain (c : ascii) :
  is_hex c = true ->
  Py_ISSPACE c = false /\ Py_UNICODE_ISSPACE c = false /\
  Ascii.eqb c "+" = false /\ Ascii.eqb c "-" = false /\
  Ascii.eqb c "_" = false /\ Ascii.eqb c "x" = false /\
  Ascii.eqb c "X" = false /\ Ascii.eqb c "/" = false /\
  0 <= digit_value c < 16.
Proof.
  each_char c; intro H; vm_compute in H; try discriminate H;
    vm_compute; repeat split; congruence.
Qed.

Lemma hex_char_int_space (c : ascii) :
  is_hex c = true -> int_space c = false.
Proof.
  each_char c; intro H; vm_compute in H; try discriminate H; reflexivity.
Qed.

Lemma length_app (s t : string) :
  String.length (s ++ t) = (String.length s + String.length t)%nat.
Proof. induction s as [|c s IH]; simpl; [reflexivity | now rewrite IH]. Qed.

Lemma rstrip_keeps (s t : string) :
  is_empty (rstrip t) = false -> rstrip (s ++ t) = s ++ rstrip t.
Proof.
  intro H. induction s as [|c s IH]; simpl; [reflexivity|].
  rewrite IH. destruct (s ++ rstrip t) eqn:E; [|reflexivity].
  destruct s; simpl in E; [|discriminate E]. now rewrite E in H.
Qed.

Lemma rstrip_plain (c : ascii) (t : string) :
  Py_UNICODE_ISSPACE c = false -> rstrip (String c t) = String c (rstrip t).
Proof. intro H. simpl. rewrite H, andb_false_r. reflexivity. Qed.

Lemma rstrip_hex (x : string) :
  all_chars is_hex x = true -> rstrip x = x.
Proof.
  induction x as [|c x IH]; simpl; [reflexivity|].
  intro H. apply andb_prop in H as [Hc Hx].
  apply hex_char_plain in Hc as (_ & Hs & _).
  rewrite Hs, andb_false_r, IH by assumption. reflexivity.
Qed.

(** ** [split] *)

Lemma split_nonempty (sep : ascii) (s : string) : split sep s <> [].
Proof.
  induction s as [|c s IH]; simpl; [discriminate|].
  destruct (Ascii.eqb c sep); [discriminate|].
  destruct (split sep s); discriminate.
Qed.

Lemma split_token (x rest : string) :
  no_slash x = true ->
  split "/" (x ++ String "/" rest) = x :: split "/" rest.
Proof.
  unfold no_slash. induction x as [|c x IH]; simpl; [reflexivity|].
  intro H. apply andb_prop in H as [Hc Hx].
  apply negb_true_iff in Hc. rewrite Hc, IH by assumption. reflexivity.
Qed.

Lemma split_last (x : string) :
  no_slash x = true -> split "/" x = [x].
Proof.
  unfold no_slash. induction x as [|c x IH]; simpl; [reflexivity|].
  intro H. apply andb_prop in H as [Hc Hx].
  apply negb_true_iff in Hc. rewrite Hc, IH by assumption. reflexivity.
Qed.

Lemma hex_no_slash (x : string) :
  all_chars is_hex x = true -> no_slash x = true.
Proof.
  unfold no_slash. induction x as [|c x IH]; simpl; [reflexivity|].
  intro H. apply andb_prop in H as [Hc Hx].
  apply hex_char_plain in Hc as (_ & _ & _ & _ & _ & _ & _ & Hs & _).
  rewrite Hs, IH by assumption. reflexivity.
Qed.

(** ** [int(x, 16)] on hex digits *)

Lemma scan_hex (s : string) : forall prev acc d,
  all_chars is_hex s = true ->
  scan_digits 16 s prev acc d
  = Some (hex_value_from acc s, (d + String.length s)%nat,
          last_char prev s, EmptyString).
Proof.
  induction s as [|c s IH]; intros prev acc d H; simpl.
  - now rewrite Nat.add_0_r.
  - simpl in H. apply andb_prop in H as [Hc Hs].
    unfold is_hex in Hc. rewrite Hc, IH by assumption.
    rewrite Nat.add_succ_r, (Z.mul_comm acc 16). reflexivity.
Qed.

Lemma last_char_hex (s : string) : forall c,
  is_hex c = true -> all_chars is_hex s = true ->
  is_hex (last_char c s) = true.
Proof.
  induction s as [|c' s IH]; intros c Hc H; simpl; [assumption|].
  simpl in H. apply andb_prop in H as [Hc' Hs]. now apply IH.
Qed.

Lemma take_sign_hex (c : ascii) (r : string) :
  is_hex c = true -> take_sign (String c r) = (1, String c r).
Proof.
  each_char c; intro H; vm_compute in H; try discriminate H; reflexivity.
Qed.

Lemma skip_radix_prefix_hex (x : string) :
  all_chars is_hex x = true -> skip_radix_prefix 16 x = x.
Proof.
  destruct x as [|c [|c2 r]]; try reflexivity.
  - intros _. each_char c; reflexivity.
  - intro H. simpl in H. apply andb_prop in H as [_ H].
    apply andb_prop in H as [H _].
    apply hex_char_plain in H as (_ & _ & _ & _ & _ & Hx & HX & _).
    each_char c; try reflexivity.
    unfold skip_radix_prefix. rewrite Hx, HX. reflexivity.
Qed.

Lemma py_int_hex (x : string) :
  all_chars is_hex x = true -> x <> EmptyString ->
  py_int x 16 = Ok (hex_value x).
Proof.
  intros Hall Hne. destruct x as [|c r]; [congruence|].
  pose proof Hall as H. simpl in H. apply andb_prop in H as [Hc Hr].
  pose proof (hex_char_plain c Hc) as (Hsp & _ & _ & _ & Hus & _).
  unfold py_int. cbn [drop_while].
  rewrite (hex_char_int_space c Hc), take_sign_hex by assumption.
  rewrite skip_radix_prefix_hex by assumption.
  cbn [leading_underscore]. rewrite Hus, scan_hex by assumption.
  assert (Hlast : is_hex (last_char "000" (String c r)) = true)
    by (simpl; now apply last_char_hex).
  apply hex_char_plain in Hlast as (_ & _ & _ & _ & Hl & _).
  rewrite Hl. cbn [String.length Nat.add Nat.eqb drop_while is_empty negb].
  change (is_binary_base 16) with true. cbn [negb andb].
  now rewrite Z.mul_1_l.
Qed.

(** ** The rescaling of 16-bit values

    On every integer of 0..65535 the float computation of [h] yields the
    nearest integer to the exact quotient; checked value by value. *)

Lemma all_range_spec (p : Z -> bool) (k : nat) : forall lo z,
  all_range p k lo = true -> lo <= z < lo + 2 ^ Z.of_nat k -> p z = true.
Proof.
  induction k as [|k IH]; intros lo z H Hz.
  - simpl in *. assert (z = lo) by lia. now subst.
  - cbn [all_range] in H. apply andb_prop in H as [H1 H2].
    rewrite Nat2Z.inj_succ, Z.pow_succ_r in Hz by lia.
    destruct (Z.lt_ge_cases z (lo + 2 ^ Z.of_nat k)).
    + apply (IH lo); [assumption | lia].
    + apply (IH (lo + 2 ^ Z.of_nat k)); [assumption | lia].
Qed.

Lemma rescale_all : all_range rescale_agrees 16 0 = true.
Proof. vm_compute. reflexivity. Qed.

Lemma rescale_16bit (n : Z) :
  0 <= n < 65536 -> rescale n = Ok (scale16 n) /\ 0 <= scale16 n <= 255.
Proof.
  intro Hn. pose proof (all_range_spec _ 16 0 n rescale_all Hn) as H.
  unfold rescale_agrees in H. destruct (rescale n) as [v|]; [|discriminate].
  apply andb_prop in H as [H1 H2]. apply Z.eqb_eq in H1. subst v.
  unfold in_range in H2. apply andb_prop in H2 as [H2 H3].
  split; [reflexivity | lia].
Qed.

(** ** [h] on hex tokens *)

Lemma hex_value_from_bounds (x : string) : forall acc,
  all_chars is_hex x = true -> 0 <= acc ->
  acc * 16 ^ Z.of_nat (String.length x) <= hex_value_from acc x
  < (acc + 1) * 16 ^ Z.of_nat (String.length x).
Proof.
  induction x as [|c x IH]; intros acc H Hacc.
  - simpl. lia.
  - simpl in H. apply andb_prop in H as [Hc Hx].
    apply hex_char_plain in Hc as (_ & _ & _ & _ & _ & _ & _ & _ & Hd).
    cbn [hex_value_from String.length].
    rewrite Nat2Z.inj_succ, Z.pow_succ_r by lia.
    specialize (IH (16 * acc + digit_value c) Hx ltac:(lia)).
    set (p := 16 ^ Z.of_nat (String.length x)) in *.
    assert (0 < p) by (apply Z.pow_pos_nonneg; lia). nia.
Qed.

Lemma hex_value_bounds (n : nat) (x : string) :
  hex_token n x -> 0 <= hex_value x < 16 ^ Z.of_nat n.
Proof.
  intros [H <-]. pose proof (hex_value_from_bounds x 0 H ltac:(lia)).
  unfold hex_value. lia.
Qed.

Lemma hex_token_nonempty (n : nat) (x : string) :
  hex_token (S n) x -> x <> EmptyString.
Proof. intros [_ H] ->. discriminate H. Qed.

Lemma h_two_digits (x : string) :
  hex_token 2 x -> h x = Ok (hex_value x).
Proof.
  intro Hx. unfold h. rewrite py_int_hex.
  - destruct Hx as [_ ->]. reflexivity.
  - apply Hx.
  - eapply hex_token_nonempty, Hx.
Qed.

Lemma h_rescales (n : nat) (x : string) :
  hex_token (S n) x -> S n <> 2%nat -> (S n <= 4)%nat ->
  h x = Ok (scale16 (hex_value x)) /\ 0 <= scale16 (hex_value x) <= 255.
Proof.
  intros Hx Hn2 Hn4. pose proof (hex_value_bounds _ _ Hx) as Hb.
  assert (Hr : 0 <= hex_value x < 65536).
  { split; [lia|]. eapply Z.lt_le_trans; [apply Hb|].
    change 65536 with (16 ^ 4). apply Z.pow_le_mono_r; lia. }
  apply rescale_16bit in Hr as [Hr Hs]. split; [|exact Hs].
  unfold h. rewrite py_int_hex;
    [| apply Hx | eapply hex_token_nonempty, Hx].
  destruct Hx as [_ ->]. cbn [bind].
  destruct (Nat.eqb_spec (S n) hex_2_digit_max) as [E|_]; [contradiction|].
  exact Hr.
Qed.

(** ** The [rgb:] and [rgba:] grammar *)

Lemma rstrip_after (s : string) (c : ascii) (t : string) :
  Py_UNICODE_ISSPACE c = false ->
  rstrip (s ++ String c t) = s ++ String c (rstrip t).
Proof.
  intro Hc. rewrite rstrip_keeps; rewrite rstrip_plain by assumption;
    reflexivity.
Qed.

Lemma rstrip_idem_app (s t : string) :
  rstrip s = s -> s <> EmptyString -> rstrip (s ++ t) = s ++ rstrip t.
Proof.
  induction s as [|c s IH]; intros H Hne; [congruence|].
  cbn [rstrip] in H. cbn [append rstrip].
  destruct (is_empty (rstrip s) && Py_UNICODE_ISSPACE c) eqn:E;
    [discriminate H|].
  injection H as H. destruct s as [|c' s'].
  - cbn [append]. simpl in E. rewrite E, andb_false_r. reflexivity.
  - rewrite IH by (assumption || discriminate). reflexivity.
Qed.

Lemma parse_rgb_payload (pre p : string) :
  pre = "rgb:" \/ pre = "rgba:" ->
  parse_rgb (pre ++ p)
  = match firstn 3 (split "/" (rstrip p)) with
    | [r; g; b] => channels r g b
    | _ => Raise ValueError
    end.
Proof.
  assert (P1 : forall t, startswith ("rgb:" ++ t) "rgb:" = true)
    by reflexivity.
  assert (P2 : forall t, startswith ("rgba:" ++ t) "rgb:" = false)
    by reflexivity.
  assert (P3 : forall t, startswith ("rgba:" ++ t) "rgba:" = true)
    by reflexivity.
  assert (S1 : forall t, split1 ":" ("rgb:" ++ t) = ["rgb"; t])
    by reflexivity.
  assert (S2 : forall t, split1 ":" ("rgba:" ++ t) = ["rgba"; t])
    by reflexivity.
  intros [-> | ->]; unfold parse_rgb, strip.
  - replace (drop_while Py_UNICODE_ISSPACE ("rgb:" ++ p)) with ("rgb:" ++ p)
      by reflexivity.
    rewrite (rstrip_idem_app "rgb:") by (reflexivity || discriminate).
    rewrite P1, S1. reflexivity.
  - replace (drop_while Py_UNICODE_ISSPACE ("rgba:" ++ p))
      with ("rgba:" ++ p) by reflexivity.
    rewrite (rstrip_idem_app "rgba:") by (reflexivity || discriminate).
    rewrite P2, P3, S2. reflexivity.
Qed.

Lemma split_three (r g b : string) :
  no_slash r = true -> no_slash g = true -> no_slash b = true ->
  split "/" (r ++ String "/" (g ++ String "/" b)) = [r; g; b].
Proof.
  intros Hr Hg Hb. now rewrite !split_token, split_last.
Qed.

Lemma rstrip_three (r g b : string) :
  rstrip b = b ->
  rstrip (r ++ String "/" (g ++ String "/" b))
  = r ++ String "/" (g ++ String "/" b).
Proof.
  intro Hb. rewrite rstrip_after by reflexivity.
  rewrite rstrip_after by reflexivity. now rewrite Hb.
Qed.

(** A string of three channel tokens, the last one free of trailing
    white space, parses to the channels of the tokens. *)
Lemma parse_rgb_three (pre r g b : string) :
  pre = "rgb:" \/ pre = "rgba:" ->
  no_slash r = true -> no_slash g = true -> no_slash b = true ->
  rstrip b = b ->
  parse_rgb (pre ++ r ++ String "/" (g ++ String "/" b)) = channels r g b.
Proof.
  intros Hpre Hr Hg Hb Hs.
  rewrite parse_rgb_payload, rstrip_three, split_three by assumption.
  reflexivity.
Qed.

Lemma parse_rgb_hex_tokens (pre r g b : string) (nr ng nb : nat) :
  pre = "rgb:" \/ pre = "rgba:" ->
  hex_token nr r -> hex_token ng g -> hex_token nb b ->
  parse_rgb (pre ++ r ++ String "/" (g ++ String "/" b)) = channels r g b.
Proof.
  intros Hpre [Hr _] [Hg _] [Hb _].
  apply parse_rgb_three; auto using hex_no_slash, rstrip_hex.
Qed.

Lemma h_channel_value (x : string) :
  hex_token 2 x \/ hex_token 4 x ->
  h x = Ok (channel_value x) /\ 0 <= channel_value x <= 255.
Proof.
  unfold channel_value. intros [H | H].
  - rewrite (h_two_digits x H). pose proof (hex_value_bounds 2 x H) as Hb.
    destruct H as [_ ->]. change (16 ^ Z.of_nat 2) with 256 in Hb.
    split; [reflexivity | simpl; lia].
  - destruct (h_rescales 3 x H ltac:(discriminate) ltac:(lia)) as [-> Hb].
    destruct H as [_ ->]. split; [reflexivity | exact Hb].
Qed.

(** C4.  A string [rgb:R/G/B] or [rgba:R/G/B] whose channel tokens are
    each two or four hex digits parses to the triple of their channel
    values: a two-digit token is its own value, between 0 and 255, and a
    four-digit token [n] is the integer nearest to [n / 65535 * 255]. *)
Theorem rgb_two_and_four_digit_channels (pre r g b : string) :
  pre = "rgb:" \/ pre = "rgba:" ->
  hex_token 2 r \/ hex_token 4 r ->
  hex_token 2 g \/ hex_token 4 g ->
  hex_token 2 b \/ hex_token 4 b ->
  parse_rgb (pre ++ r ++ "/" ++ g ++ "/" ++ b)
  = Ok (Some (channel_value r, channel_value g, channel_value b))
  /\ (forall x, hex_token 2 x ->
        channel_value x = hex_value x /\ 0 <= hex_value x <= 255)
  /\ (forall x, hex_token 4 x ->
        channel_value x = scale16 (hex_value x)
        /\ 0 <= scale16 (hex_value x) <= 255).
Proof.
  intros Hpre Hr Hg Hb. split; [|split].
  - assert (Tr : exists n, hex_token n r)
      by (destruct Hr; eexists; eassumption).
    assert (Tg : exists n, hex_token n g)
      by (destruct Hg; eexists; eassumption).
    assert (Tb : exists n, hex_token n b)
      by (destruct Hb; eexists; eassumption).
    destruct Tr as [nr Tr], Tg as [ng Tg], Tb as [nb Tb].
    change (parse_rgb (pre ++ r ++ String "/" (g ++ String "/" b))
            = Ok (Some (channel_value r, channel_value g, channel_value b))).
    rewrite (parse_rgb_hex_tokens pre r g b nr ng nb) by assumption.
    unfold channels.
    destruct (h_channel_value r Hr) as [-> _].
    destruct (h_channel_value g Hg) as [-> _].
    destruct (h_channel_value b Hb) as [-> _]. reflexivity.
  - intros x Hx. pose proof (h_channel_value x (or_introl Hx)) as [_ Hv].
    unfold channel_value in *. destruct Hx as [_ Hx]. rewrite Hx in *.
    split; [reflexivity | exact Hv].
  - intros x Hx. pose proof (h_channel_value x (or_intror Hx)) as [_ Hv].
    unfold channel_value in *. destruct Hx as [_ Hx]. rewrite Hx in *.
    split; [reflexivity | exact Hv].
Qed.

Lemma rgb_two_and_four_digit_channels_witness :
  parse_rgb "rgb:ffff/0000/8080" = Ok (Some (255, 0, 128)).
Proof.
  exact (proj1 (rgb_two_and_four_digit_channels "rgb:" "ffff" "0000" "8080"
                  (or_introl eq_refl)
                  (or_intror (conj eq_refl eq_refl))
                  (or_intror (conj eq_refl eq_refl))
                  (or_intror (conj eq_refl eq_refl)))).
Defined.

(** C5, as the code has it.  A string [rgb:R/G/B] or [rgba:R/G/B] whose
    channel tokens are each one or three hex digits parses to the triple
    of the integers nearest to [n / 65535 * 255]: the token is rescaled
    from the 16-bit range whatever its digit count. *)
Theorem rgb_one_and_three_digit_channels (pre r g b : string) :
  pre = "rgb:" \/ pre = "rgba:" ->
  hex_token 1 r \/ hex_token 3 r ->
  hex_token 1 g \/ hex_token 3 g ->
  hex_token 1 b \/ hex_token 3 b ->
  parse_rgb (pre ++ r ++ "/" ++ g ++ "/" ++ b)
  = Ok (Some (scale16 (hex_value r), scale16 (hex_value g),
              scale16 (hex_value b))).
Proof.
  intros Hpre Hr Hg Hb.
  assert (H13 : forall x, hex_token 1 x \/ hex_token 3 x ->
            (exists n, hex_token n x) /\ h x = Ok (scale16 (hex_value x))).
  { intros x [H | H]; (split; [eexists; eassumption|]).
    - apply (h_rescales 0 x H); [discriminate | lia].
    - apply (h_rescales 2 x H); [discriminate | lia]. }
  destruct (H13 r Hr) as [[nr Tr] Er], (H13 g Hg) as [[ng Tg] Eg],
    (H13 b Hb) as [[nb Tb] Eb].
  change (parse_rgb (pre ++ r ++ String "/" (g ++ String "/" b))
          = Ok (Some (scale16 (hex_value r), scale16 (hex_value g),
                      scale16 (hex_value b)))).
  rewrite (parse_rgb_hex_tokens pre r g b nr ng nb) by assumption.
  unfold channels. rewrite Er, Eg, Eb. reflexivity.
Qed.

Lemma rgb_one_and_three_digit_channels_witness :
  parse_rgb "rgb:f/fff/8" = Ok (Some (0, 16, 0)).
Proof.
  exact (rgb_one_and_three_digit_channels "rgb:" "f" "fff" "8"
           (or_introl eq_refl)
           (or_introl (conj eq_refl eq_refl))
           (or_intror (conj eq_refl eq_refl))
           (or_introl (conj eq_refl eq_refl))).
Defined.

(** C5, as stated, fails on the one-digit token [f]: its native range
    would map it to 255, the code maps it to 0. *)
Lemma native_range_rescaling_refuted :
  hex_token 1 "f" /\ hex_value "f" = 15 /\ scale_native "f" = 255
  /\ parse_rgb "rgb:f/f/f" = Ok (Some (0, 0, 0))
  /\ parse_rgb "rgb:f/f/f"
     <> Ok (Some (scale_native "f", scale_native "f", scale_native "f")).
Proof.
  repeat split; try reflexivity. vm_compute. discriminate.
Qed.

(** ** The [#] grammar *)

Lemma two_chars (x : string) :
  hex_token 2 x ->
  exists c d, x = String c (String d EmptyString)
              /\ is_hex c = true /\ is_hex d = true.
Proof.
  intros [H L]. destruct x as [|c [|d [|e x]]]; try discriminate L.
  simpl in H. rewrite andb_true_r in H. apply andb_prop in H as [Hc Hd].
  eauto.
Qed.

Lemma parse_rgb_hash (r g b rest : string) :
  hex_token 2 r -> hex_token 2 g -> hex_token 2 b ->
  rest = EmptyString \/ hex_token 2 rest ->
  parse_rgb ("#" ++ r ++ g ++ b ++ rest)
  = Ok (Some (hex_value r, hex_value g, hex_value b)).
Proof.
  intros Hr Hg Hb Hrest.
  pose proof (h_two_digits r Hr) as Er. pose proof (h_two_digits g Hg) as Eg.
  pose proof (h_two_digits b Hb) as Eb. unfold h in Er, Eg, Eb.
  destruct (two_chars r Hr) as (r1 & r2 & -> & Hr1 & Hr2).
  destruct (two_chars g Hg) as (g1 & g2 & -> & Hg1 & Hg2).
  destruct (two_chars b Hb) as (b1 & b2 & -> & Hb1 & Hb2).
  cbn [String.length Nat.eqb hex_2_digit_max] in Er, Eg, Eb.
  assert (Hs : forall c, is_hex c = true -> Py_UNICODE_ISSPACE c = false)
    by (intros c Hc; apply hex_char_plain in Hc; tauto).
  unfold parse_rgb, strip. cbn [append drop_while].
  change (Py_UNICODE_ISSPACE "#") with false. cbv iota.
  destruct Hrest as [-> | Ha].
  - rewrite !rstrip_plain by auto. cbn [rstrip].
    cbn [startswith Ascii.eqb Bool.eqb andb orb String.length Nat.eqb].
    cbn [substring]. 
    destruct (py_int (String r1 (String r2 "")) 16) as [vr|]; [|discriminate].
    destruct (py_int (String g1 (String g2 "")) 16) as [vg|]; [|discriminate].
    destruct (py_int (String b1 (String b2 "")) 16) as [vb|]; [|discriminate].
    cbn [bind] in *. congruence.
  - destruct (two_chars rest Ha) as (a1 & a2 & -> & Ha1 & Ha2).
    cbn [append]. rewrite !rstrip_plain by auto. cbn [rstrip].
    cbn [startswith Ascii.eqb Bool.eqb andb orb String.length Nat.eqb].
    cbn [substring]. 
    destruct (py_int (String r1 (String r2 "")) 16) as [vr|]; [|discriminate].
    destruct (py_int (String g1 (String g2 "")) 16) as [vg|]; [|discriminate].
    destruct (py_int (String b1 (String b2 "")) 16) as [vb|]; [|discriminate].
    cbn [bind] in *. congruence.
Qed.

(** C7.  A string [#RRGGBB] of hex digits parses to its three byte
    values, and [#RRGGBBAA] parses to the same triple as [#RRGGBB]: the
    alpha pair is ignored. *)
Theorem hash_hex_bytes (r g b a : string) :
  hex_token 2 r -> hex_token 2 g -> hex_token 2 b -> hex_token 2 a ->
  parse_rgb ("#" ++ r ++ g ++ b)
  = Ok (Some (hex_value r, hex_value g, hex_value b))
  /\ parse_rgb ("#" ++ r ++ g ++ b ++ a) = parse_rgb ("#" ++ r ++ g ++ b)
  /\ 0 <= hex_value r <= 255 /\ 0 <= hex_value g <= 255
  /\ 0 <= hex_value b <= 255.
Proof.
  intros Hr Hg Hb Ha.
  pose proof (parse_rgb_hash r g b EmptyString Hr Hg Hb (or_introl eq_refl))
    as H6.
  pose proof (parse_rgb_hash r g b a Hr Hg Hb (or_intror Ha)) as H8.
  replace (b ++ "") with b in H6
    by (destruct (two_chars b Hb) as (? & ? & -> & _); reflexivity).
  pose proof (hex_value_bounds 2 r Hr). pose proof (hex_value_bounds 2 g Hg).
  pose proof (hex_value_bounds 2 b Hb).
  change (16 ^ Z.of_nat 2) with 256 in *.
  rewrite H6, H8. repeat split; lia.
Qed.

Lemma hash_hex_bytes_witness :
  parse_rgb "#1a2b3c" = Ok (Some (26, 43, 60))
  /\ parse_rgb "#1a2b3caa" = parse_rgb "#1a2b3c".
Proof.
  pose proof (hash_hex_bytes "1a" "2b" "3c" "aa"
                (conj eq_refl eq_refl) (conj eq_refl eq_refl)
                (conj eq_refl eq_refl) (conj eq_refl eq_refl))
    as (H6 & H8 & _).
  exact (conj H6 H8).
Defined.

(** ** More than three components *)

Lemma split_four (r g b rest : string) :
  no_slash r = true -> no_slash g = true -> no_slash b = true ->
  firstn 3 (split "/" (r ++ String "/" (g ++ String "/"
                         (b ++ String "/" rest))))
  = [r; g; b].
Proof.
  intros Hr Hg Hb. rewrite !split_token by assumption. reflexivity.
Qed.

(** C9.  When the payload of an [rgb:] or [rgba:] string has more than
    three components, the result is made from the first three alone,
    whatever follows them; it is the result for the string cut after
    the third component when that component ends without white space. *)
Theorem rgb_extra_components_ignored (pre r g b rest : string) :
  pre = "rgb:" \/ pre = "rgba:" ->
  no_slash r = true -> no_slash g = true -> no_slash b = true ->
  parse_rgb (pre ++ r ++ "/" ++ g ++ "/" ++ b ++ "/" ++ rest)
  = channels r g b
  /\ (rstrip b = b ->
      parse_rgb (pre ++ r ++ "/" ++ g ++ "/" ++ b ++ "/" ++ rest)
      = parse_rgb (pre ++ r ++ "/" ++ g ++ "/" ++ b)).
Proof.
  intros Hpre Hr Hg Hb.
  assert (H4 : parse_rgb (pre ++ r ++ "/" ++ g ++ "/" ++ b ++ "/" ++ rest)
               = channels r g b).
  { change (parse_rgb (pre ++ r ++ String "/" (g ++ String "/"
                         (b ++ String "/" rest))) = channels r g b).
    rewrite parse_rgb_payload by assumption.
    rewrite 3 rstrip_after by reflexivity.
    rewrite split_four by assumption. reflexivity. }
  split; [exact H4|]. intro Hs. rewrite H4. symmetry.
  exact (parse_rgb_three pre r g b Hpre Hr Hg Hb Hs).
Qed.

Lemma rgb_extra_components_ignored_witness :
  parse_rgb "rgba:1111/2222/3333/4444" = Ok (Some (17, 34, 51))
  /\ parse_rgb "rgba:1111/2222/3333/4444" = parse_rgb "rgba:1111/2222/3333".
Proof.
  pose proof (rgb_extra_components_ignored "rgba:" "1111" "2222" "3333"
                "4444" (or_intror eq_refl) eq_refl eq_refl eq_refl)
    as [H4 H3].
  exact (conj H4 (H3 eq_refl)).
Defined.

(** ** Malformed tokens *)

(** No string of the [rgb:] or [rgba:] shape parses to [None]: either the
    three channels are read or an exception is raised. *)
Lemma rgb_shape_never_none (pre p : string) :
  pre = "rgb:" \/ pre = "rgba:" -> parse_rgb (pre ++ p) <> Ok None.
Proof.
  intro Hpre. rewrite parse_rgb_payload by assumption.
  destruct (firstn 3 (split "/" (rstrip p))) as [|r [|g [|b [|? ?]]]];
    try discriminate.
  unfold channels. destruct (h r); [|discriminate].
  destruct (h g); [|discriminate]. destruct (h b); discriminate.
Qed.

(** C1, on the code.  A non-hex digit in a matched [rgb:] payload, a
    payload of two components and a non-hex digit after [#] each end
    [parse_rgb] with a [ValueError], not with [None]. *)
Theorem parse_rgb_malformed_token_raises :
  parse_rgb "rgb:zz/00/00" = Raise ValueError
  /\ parse_rgb "rgb:00/00" = Raise ValueError
  /\ parse_rgb "#zz0000" = Raise ValueError.
Proof. repeat split; vm_compute; reflexivity. Qed.

(** ** The probe *)

Lemma append_empty_r (s : string) : s ++ EmptyString = s.
Proof. induction s as [|c s IH]; simpl; [reflexivity | now rewrite IH]. Qed.

Lemma select_timeouts_app (xs ys : list (event * termios_attr)) :
  select_timeouts (xs ++ ys)%list
  = (select_timeouts xs ++ select_timeouts ys)%list.
Proof.
  induction xs as [|[e m] xs IH]; simpl; [reflexivity|].
  destruct e; simpl; now rewrite IH.
Qed.

Lemma polls_le (t : terminal) (n : nat) : forall i, (polls t n i <= n)%nat.
Proof.
  induction n as [|n IH]; intro i; simpl; [lia|].
  destruct (tty_poll t i) as [|[b|]|]; try lia.
  - specialize (IH (S i)). lia.
  - destruct (has_terminator _); [lia|]. specialize (IH (S i)). lia.
Qed.

Lemma collected_not_ready (t : terminal) (i : nat) :
  tty_poll t i = NotReady -> collected t (S i) = collected t i.
Proof. intro E. simpl. rewrite E. apply append_empty_r. Qed.

Lemma collected_data (t : terminal) (i : nat) (b : string) :
  tty_poll t i = Ready (Data b) ->
  collected t (S i) = collected t i ++ take 4096 b.
Proof. intro E. simpl. now rewrite E. Qed.

Lemma poll_loop_log (t : terminal) (n : nat) : forall i d,
  exists xs,
    extends d (snd (poll_loop t n i (collected t i) d)) xs
    /\ select_timeouts xs = repeat 0.02%float (polls t n i).
Proof.
  induction n as [|n IH]; intros i d.
  - exists []. repeat split; auto.
  - cbn [poll_loop polls]. unfold io_bind, select, os_read.
    destruct (tty_poll t i) as [|[b|]|] eqn:E; cbn [negb].
    + destruct (IH (S i) (log (EvSelect 0.02) d))
        as (xs & (Hm & Ho & Hl & Hf) & Ht).
      rewrite (collected_not_ready t i E) in *.
      exists (xs ++ [(EvSelect 0.02%float, dev_mode d)])%list.
      repeat split; try assumption.
      * rewrite Hl. cbn [log dev_log]. now rewrite <- app_assoc.
      * apply Forall_app. split; [exact Hf | repeat constructor].
      * rewrite select_timeouts_app, Ht. cbn [select_timeouts].
        now rewrite <- repeat_cons.
    + rewrite <- (collected_data t i b E).
      destruct (has_terminator (collected t (S i))).
      * exists [(EvRead 4096, dev_mode d); (EvSelect 0.02%float, dev_mode d)].
        repeat split; repeat constructor.
      * destruct (IH (S i) (log (EvRead 4096) (log (EvSelect 0.02) d)))
          as (xs & (Hm & Ho & Hl & Hf) & Ht).
        exists (xs ++ [(EvRead 4096, dev_mode d);
                       (EvSelect 0.02%float, dev_mode d)])%list.
        repeat split; try assumption.
        -- rewrite Hl. cbn [log dev_log dev_mode]. now rewrite <- app_assoc.
        -- apply Forall_app. split; [exact Hf | repeat constructor].
        -- rewrite select_timeouts_app, Ht. cbn [select_timeouts].
           now rewrite <- repeat_cons.
    + exists [(EvRead 4096, dev_mode d); (EvSelect 0.02%float, dev_mode d)].
      repeat split; repeat constructor.
    + exists [(EvSelect 0.02%float, dev_mode d)].
      repeat split; repeat constructor.
Qed.

Lemma poll_loop_result (t : terminal) (n : nat) : forall i d,
  (forall j, (i <= j < i + n)%nat -> poll_fails (tty_poll t j) = false) ->
  fst (poll_loop t n i (collected t i) d)
  = Ok (collected t (i + polls t n i)).
Proof.
  induction n as [|n IH]; intros i d Hok.
  - simpl. now rewrite Nat.add_0_r.
  - cbn [poll_loop polls]. unfold io_bind, select, os_read.
    pose proof (Hok i ltac:(lia)) as Hi.
    assert (Hrest : forall j, (S i <= j < S i + n)%nat ->
                      poll_fails (tty_poll t j) = false)
      by (intros j Hj; apply Hok; lia).
    destruct (tty_poll t i) as [|[b|]|] eqn:E; try discriminate Hi;
      cbn [negb].
    + rewrite <- (collected_not_ready t i E) at 1.
      rewrite IH by assumption. now rewrite Nat.add_succ_r.
    + rewrite <- (collected_data t i b E).
      destruct (has_terminator (collected t (S i))).
      * cbn [ret fst]. now rewrite Nat.add_1_r.
      * rewrite IH by assumption. now rewrite Nat.add_succ_r.
Qed.

Lemma polls_clean_before (t : terminal) (n : nat) : forall i,
  (forall j, (i <= j < i + n)%nat -> poll_fails (tty_poll t j) = false) ->
  has_terminator (collected t i) = false ->
  forall j, (i <= j < i + polls t n i)%nat ->
            has_terminator (collected t j) = false.
Proof.
  induction n as [|n IH]; intros i Hok H0 j Hj; cbn [polls] in Hj; [lia|].
  pose proof (Hok i ltac:(lia)) as Hi.
  assert (Hrest : forall j, (S i <= j < S i + n)%nat ->
                    poll_fails (tty_poll t j) = false)
    by (intros j' Hj'; apply Hok; lia).
  destruct (Nat.eq_dec j i) as [-> | Hne]; [exact H0|].
  destruct (tty_poll t i) as [|[b|]|] eqn:E; try discriminate Hi.
  - apply (IH (S i)); try assumption; [|lia].
    now rewrite (collected_not_ready t i E).
  - destruct (has_terminator (collected t (S i))) eqn:T; [lia|].
    apply (IH (S i)); try assumption. lia.
Qed.

Lemma polls_early_exit (t : terminal) (n : nat) : forall i,
  (forall j, (i <= j < i + n)%nat -> poll_fails (tty_poll t j) = false) ->
  (polls t n i < n)%nat ->
  has_terminator (collected t (i + polls t n i)) = true.
Proof.
  induction n as [|n IH]; intros i Hok Hlt; cbn [polls] in Hlt; [lia|].
  pose proof (Hok i ltac:(lia)) as Hi.
  assert (Hrest : forall j, (S i <= j < S i + n)%nat ->
                    poll_fails (tty_poll t j) = false)
    by (intros j' Hj'; apply Hok; lia).
  cbn [polls].
  destruct (tty_poll t i) as [|[b|]|] eqn:E; try discriminate Hi.
  - rewrite Nat.add_succ_r. apply (IH (S i)); [assumption | lia].
  - destruct (has_terminator (collected t (S i))) eqn:T.
    + now rewrite Nat.add_1_r.
    + rewrite Nat.add_succ_r. apply (IH (S i)); [assumption | lia].
Qed.

Section ProbeFacts.

Variables ICANON ECHO : Z.

Lemma exchange_log (t : terminal) (d : device) :
  exists xs,
    extends d (snd (exchange t d)) xs
    /\ select_timeouts xs
       = if tty_write_ok t then repeat 0.02%float (polls t 100 0) else [].
Proof.
  unfold exchange. generalize 100%nat. intro n.
  unfold io_bind, os_write.
  destruct (tty_write_ok t); cbv beta iota zeta.
  - destruct (poll_loop_log t n 0 (log (EvWrite osc11_query) d))
      as (xs & (Hm & Ho & Hl & Hf) & Ht).
    change (collected t 0) with EmptyString in *.
    exists (xs ++ [(EvWrite osc11_query, dev_mode d)])%list.
    repeat split; try assumption.
    + rewrite Hl. cbn [log dev_log]. now rewrite <- app_assoc.
    + apply Forall_app. split; [exact Hf | repeat constructor].
    + rewrite select_timeouts_app, Ht. cbn [select_timeouts].
      apply app_nil_r.
  - exists [(EvWrite osc11_query, dev_mode d)].
    repeat split; repeat constructor.
Qed.

(** The run of the probe on an open device. *)
Lemma probe_log (t : terminal) (d : device) :
  let old := dev_mode d in
  let raw := raw_mode ICANON ECHO old in
  let d' := snd (probe ICANON ECHO t d) in
  exists xs,
    dev_mode d' = old
    /\ dev_log d'
       = ((EvClose, old) :: (EvSetAttr old, raw) :: xs
          ++ (EvSetAttr raw, old) :: dev_log d)%list
    /\ Forall (fun em => is_exchange_event (fst em) = true
                         /\ snd em = raw) xs
    /\ select_timeouts xs
       = if tty_write_ok t then repeat 0.02%float (polls t 100 0) else [].
Proof.
  intros old raw d'. subst d'.
  unfold probe, io_bind, tcgetattr, tcsetattr, try_finally, os_close.
  fold old. fold raw.
  set (d1 := {| dev_mode := raw; dev_open := dev_open d;
                dev_log := (EvSetAttr raw, old) :: dev_log d |}).
  destruct (exchange_log t d1) as (xs & (Hm & Ho & Hl & Hf) & Ht).
  exists xs. destruct (exchange t d1) as [r d2]. cbn [snd] in *.
  cbn [log dev_mode dev_log dev_open fst snd].
  repeat split; try assumption.
  rewrite Hm, Hl. reflexivity.
Qed.

Lemma probe_result (t : terminal) (d : device) :
  tty_write_ok t = true ->
  (forall j, (j < 100)%nat -> poll_fails (tty_poll t j) = false) ->
  fst (probe ICANON ECHO t d) = Ok (collected t (polls t 100 0)).
Proof.
  intros Hw. unfold probe, exchange. generalize 100%nat. intros n Hok.
  unfold io_bind, tcgetattr, tcsetattr, try_finally, os_close, os_write.
  rewrite Hw. cbv beta iota zeta.
  match goal with
  | |- context [poll_loop t n 0 EmptyString ?d0] =>
      pose proof (poll_loop_result t n 0 d0
                    ltac:(intros j Hj; apply Hok; lia)) as H;
      change (collected t 0) with EmptyString in H;
      destruct (poll_loop t n 0 EmptyString d0) as [r d2]
  end.
  cbn [fst] in *. exact H.
Qed.

Lemma query_unfold (t : terminal) (d : device) :
  query_bg_from_terminal ICANON ECHO t d
  = if tty_opens t then
      let d1 := log EvOpen {| dev_mode := dev_mode d; dev_open := true;
                              dev_log := dev_log d |} in
      match probe ICANON ECHO t d1 with
      | (Ok buf, d2) => (Ok (extract_reply buf), d2)
      | (Raise e, d2) => (Raise e, d2)
      end
    else (Ok None, d).
Proof.
  unfold query_bg_from_terminal, os_open, io_bind, ret.
  destruct (tty_opens t); reflexivity.
Qed.

End ProbeFacts.

(** C3.  Whatever the terminal answers, and whether the write, the wait
    or the read fails or not, the probe leaves the device in the mode it
    found it in.  When the device opens, the log of the run is: open, set
    the raw mode, the calls of the exchange, each made in the raw mode,
    set the captured mode, close.  The raw mode is the captured mode with
    the bits of ICANON and ECHO cleared in the local flags and nothing
    else changed. *)
Theorem probe_restores_terminal_mode (ICANON ECHO : Z) (t : terminal)
    (d : device) :
  let old := dev_mode d in
  let raw := raw_mode ICANON ECHO old in
  let d' := snd (query_bg_from_terminal ICANON ECHO t d) in
  dev_mode d' = old
  /\ (if tty_opens t then
        exists xs,
          dev_log d'
          = ((EvClose, old) :: (EvSetAttr old, raw) :: xs
             ++ (EvSetAttr raw, old) :: (EvOpen, old) :: dev_log d)%list
          /\ Forall (fun em => is_exchange_event (fst em) = true
                               /\ snd em = raw) xs
      else dev_log d' = dev_log d)
  /\ (c_iflag raw = c_iflag old /\ c_oflag raw = c_oflag old
      /\ c_cflag raw = c_cflag old /\ c_ispeed raw = c_ispeed old
      /\ c_ospeed raw = c_ospeed old /\ c_cc raw = c_cc old)
  /\ (forall n, Z.testbit (c_lflag raw) n
                = Z.testbit (c_lflag old) n
                  && negb (Z.testbit ICANON n || Z.testbit ECHO n)).
Proof.
  intros old raw d'. subst d'. rewrite query_unfold. cbv zeta.
  split; [|split; [|split]].
  - destruct (tty_opens t); [|reflexivity].
    match goal with
    | |- context [probe ICANON ECHO t ?d1] =>
        destruct (probe_log ICANON ECHO t d1) as (xs & Hm & _);
        destruct (probe ICANON ECHO t d1) as [[buf|e] d2]
    end; exact Hm.
  - destruct (tty_opens t); [|reflexivity].
    match goal with
    | |- context [probe ICANON ECHO t ?d1] =>
        destruct (probe_log ICANON ECHO t d1) as (xs & _ & Hl & Hf & _);
        destruct (probe ICANON ECHO t d1) as [[buf|e] d2]
    end; exists xs; (split; [exact Hl | exact Hf]).
  - repeat split.
  - intro n. subst raw. cbn [raw_mode set_lflag c_lflag].
    rewrite Z.land_spec. destruct (Z.lt_ge_cases n 0) as [Hn | Hn].
    + rewrite (Z.testbit_neg_r (c_lflag old)) by assumption. reflexivity.
    + rewrite Z.lnot_spec, Z.lor_spec by assumption. reflexivity.
Qed.

(** The three ways out of the probe are all taken by some terminal: a
    reply, a timeout with nothing read, an error of the write. *)
Example probe_exit_paths (ICANON ECHO : Z) :
  fst (query_bg_from_terminal ICANON ECHO
         (tty_replying (osc11_reply "#000000"))
         (boot (tty_replying (osc11_reply "#000000"))))
  = Ok (Some "#000000")
  /\ fst (query_bg_from_terminal ICANON ECHO tty_silent (boot tty_silent))
     = Ok None
  /\ fst (query_bg_from_terminal ICANON ECHO tty_write_fails
            (boot tty_write_fails))
     = Raise OSError.
Proof. repeat split; vm_compute; reflexivity. Qed.

(** The stop test of line 52 and the terminators of the
    specification. *)
Lemma contains_byte_iff (c : ascii) (s : string) :
  contains_byte c s = true <-> exists a b, s = a ++ String c b.
Proof.
  split.
  - induction s as [|x s IH]; simpl; [discriminate|].
    intro H. apply orb_true_iff in H as [H | H].
    + apply Ascii.eqb_eq in H. subst x. now exists "", s.
    + destruct (IH H) as (a & b & ->). now exists (String x a), b.
  - intros (a & b & ->). induction a as [|x a IH]; simpl.
    + now rewrite Ascii.eqb_refl.
    + now rewrite IH, orb_true_r.
Qed.

Lemma contains_pair_iff (c1 c2 : ascii) (s : string) :
  contains_pair c1 c2 s = true
  <-> exists a b, s = a ++ String c1 (String c2 b).
Proof.
  split.
  - induction s as [|x s IH]; [discriminate|].
    destruct s as [|y r]; [discriminate|].
    cbn [contains_pair]. intro H. apply orb_true_iff in H as [H | H].
    + apply andb_true_iff in H as [H1 H2].
      apply Ascii.eqb_eq in H1, H2. subst x y. now exists "", r.
    + destruct (IH H) as (a & b & E). exists (String x a), b.
      cbn [append]. now rewrite E.
  - intros (a & b & ->). induction a as [|x a IH].
    + cbn [append contains_pair]. now rewrite !Ascii.eqb_refl.
    + destruct a as [|y a]; cbn [append contains_pair] in IH |- *;
        rewrite IH; apply orb_true_r.
Qed.

Lemma terminated_iff (buf : string) :
  has_terminator buf = true <-> terminated buf.
Proof.
  unfold has_terminator, terminated.
  rewrite orb_true_iff, contains_byte_iff, contains_pair_iff.
  split.
  - intros [(a & b & H) | (a & b & H)]; exists a, b; [left | right]; exact H.
  - intros (a & b & [H | H]); [left | right]; exists a, b; exact H.
Qed.

Lemma not_terminated_iff (buf : string) :
  has_terminator buf = false <-> ~ terminated buf.
Proof.
  rewrite <- terminated_iff. destruct (has_terminator buf); split;
    congruence.
Qed.

Lemma polls_clean_before_0 (t : terminal) (n : nat) :
  (forall j, (j < n)%nat -> poll_fails (tty_poll t j) = false) ->
  forall j, (j < polls t n 0)%nat -> has_terminator (collected t j) = false.
Proof.
  intros Hok j Hj. apply (polls_clean_before t n 0); try reflexivity.
  - intros j' Hj'. apply Hok. lia.
  - rewrite Nat.add_0_l. split; [apply Nat.le_0_l | exact Hj].
Qed.

Lemma polls_early_exit_0 (t : terminal) (n : nat) :
  (forall j, (j < n)%nat -> poll_fails (tty_poll t j) = false) ->
  (polls t n 0 < n)%nat ->
  has_terminator (collected t (polls t n 0)) = true.
Proof.
  intros Hok Hlt.
  pose proof (polls_early_exit t n 0) as H. rewrite Nat.add_0_l in H.
  apply H; [|exact Hlt]. intros j Hj. apply Hok. lia.
Qed.

(** C8.  The polling loop makes [polls t 100 0] readiness waits, at most
    100, each with a timeout of 0.02 seconds.  When no wait and no read
    fails, the probe returns, with the bytes the polls made have handed
    over.  The loop stops at the first poll after which the accumulated
    buffer holds a BEL byte, or an ESC byte directly followed by a
    backslash: the buffer holds neither before the last poll made, it
    holds one when the loop stops before the budget is spent, and when
    neither ever arrives the loop makes all 100 polls and the probe
    still returns what was collected. *)
Theorem poll_loop_terminates (ICANON ECHO : Z) (t : terminal) (d : device) :
  let k := polls t 100 0 in
  (k <= 100)%nat
  /\ select_timeouts (dev_log (snd (query_bg_from_terminal ICANON ECHO t d)))
     = ((if tty_opens t && tty_write_ok t then repeat 0.02%float k else [])
        ++ select_timeouts (dev_log d))%list
  /\ (tty_opens t = true -> tty_write_ok t = true ->
      (forall j, (j < 100)%nat -> poll_fails (tty_poll t j) = false) ->
      (forall d0, fst (probe ICANON ECHO t d0) = Ok (collected t k))
      /\ fst (query_bg_from_terminal ICANON ECHO t d)
         = Ok (extract_reply (collected t k))
      /\ (forall j, (j < k)%nat -> ~ terminated (collected t j))
      /\ ((k < 100)%nat -> terminated (collected t k))
      /\ ((forall j, (j <= 100)%nat -> ~ terminated (collected t j)) ->
          k = 100%nat
          /\ forall d0, fst (probe ICANON ECHO t d0)
                        = Ok (collected t 100))).
Proof.
  intro k. pose proof (polls_le t 100 0) as Hle.
  assert (Hk : k = polls t 100 0) by reflexivity. clearbody k.
  rewrite <- Hk in Hle. split; [exact Hle|]. split.
  - rewrite query_unfold. destruct (tty_opens t); [|reflexivity].
    cbv zeta.
    match goal with
    | |- context [probe ICANON ECHO t ?d1] =>
        destruct (probe_log ICANON ECHO t d1) as (xs & _ & Hl & _ & Ht);
        destruct (probe ICANON ECHO t d1) as [[buf|e] d2]
    end; cbn [snd] in Hl |- *; rewrite Hl; cbn [select_timeouts];
      rewrite select_timeouts_app, Ht, <- Hk;
      cbn [select_timeouts log dev_log andb];
      destruct (tty_write_ok t); reflexivity.
  - intros Ho Hw Hok.
    assert (Hbuf : forall d0,
               fst (probe ICANON ECHO t d0) = Ok (collected t k))
      by (intro d0; rewrite Hk; now apply probe_result).
    assert (Hearly : (k < 100)%nat -> terminated (collected t k)).
    { intro Hlt. apply terminated_iff. rewrite Hk in Hlt |- *.
      apply polls_early_exit_0; assumption. }
    split; [exact Hbuf|]. split; [|split; [|split]].
    + rewrite query_unfold, Ho. cbv zeta.
      match goal with
      | |- context [probe ICANON ECHO t ?d1] =>
          specialize (Hbuf d1);
          destruct (probe ICANON ECHO t d1) as [[buf|e] d2]
      end; cbn [fst] in Hbuf |- *; congruence.
    + intros j Hj. rewrite Hk in Hj. apply not_terminated_iff.
      exact (polls_clean_before_0 t 100 Hok j Hj).
    + exact Hearly.
    + intro Hnone.
      assert (E : k = 100%nat).
      { destruct (Nat.eq_dec k 100) as [E | E]; [exact E|].
        assert (Hlt : (k < 100)%nat) by lia.
        destruct (Hnone k Hle (Hearly Hlt)). }
      split; [exact E|]. intro d0. rewrite <- E. apply Hbuf.
Qed.

Lemma poll_loop_terminates_witness :
  (polls (tty_replying (osc11_reply "#000000")) 100 0 = 3%nat
   /\ terminated (collected (tty_replying (osc11_reply "#000000")) 3)
   /\ ~ terminated (collected (tty_replying (osc11_reply "#000000")) 2)
   /\ fst (probe 2 8 (tty_replying (osc11_reply "#000000"))
             (boot (tty_replying (osc11_reply "#000000"))))
      = Ok (osc11_reply "#000000"))
  /\ (polls tty_split_st 100 0 = 4%nat
      /\ terminated (collected tty_split_st 4)
      /\ ~ terminated (collected tty_split_st 3))
  /\ (polls tty_silent 100 0 = 100%nat
      /\ fst (probe 2 8 tty_silent (boot tty_silent)) = Ok EmptyString).
Proof.
  split; [|split].
  - set (t := tty_replying (osc11_reply "#000000")).
    assert (E : polls t 100 0 = 3%nat) by (vm_compute; reflexivity).
    pose proof (poll_loop_terminates 2 8 t (boot t)) as (_ & _ & H).
    assert (Hok : forall j, (j < 100)%nat -> poll_fails (tty_poll t j) = false)
      by (intros j _; destruct j as [|[|[|j]]]; reflexivity).
    specialize (H eq_refl eq_refl Hok).
    rewrite E in H. destruct H as (Hbuf & _ & Hbefore & Hearly & _).
    split; [exact E|]. split; [apply Hearly; lia|].
    split; [apply Hbefore; lia|]. exact (Hbuf (boot t)).
  - set (t := tty_split_st).
    assert (E : polls t 100 0 = 4%nat) by (vm_compute; reflexivity).
    pose proof (poll_loop_terminates 2 8 t (boot t)) as (_ & _ & H).
    assert (Hok : forall j, (j < 100)%nat -> poll_fails (tty_poll t j) = false)
      by (intros j _; destruct j as [|[|[|[|j]]]]; reflexivity).
    specialize (H eq_refl eq_refl Hok).
    rewrite E in H. destruct H as (_ & _ & Hbefore & Hearly & _).
    split; [exact E|]. split; [apply Hearly; lia | apply Hbefore; lia].
  - set (t := tty_silent).
    assert (E : polls t 100 0 = 100%nat) by (vm_compute; reflexivity).
    pose proof (poll_loop_terminates 2 8 t (boot t)) as (_ & _ & H).
    specialize (H eq_refl eq_refl (fun j _ => eq_refl)).
    rewrite E in H. destruct H as (Hbuf & _).
    split; [exact E | exact (Hbuf (boot t))].
Defined.

(** ** The classifier *)

Section ClassifierFacts.

Variable libm_pow : float -> float -> float * errno.

Lemma float_pow_ordinary (b : float) :
  is_nan b = false -> is_infinity b = false ->
  (b =? 0)%float = false -> (b <? 0)%float = false ->
  float_pow libm_pow b 2.4
  = if (b =? 1)%float then Ok 1%float
    else platform_pow libm_pow b 2.4 false.
Proof.
  intros Hnan Hinf Hz Hneg. unfold float_pow.
  change (2.4 =? 0)%float with false.
  change (is_nan 2.4) with false. change (is_infinity 2.4) with false.
  rewrite Hnan, Hinf, Hz, Hneg. reflexivity.
Qed.

Lemma levels_ok : all_range level_ok 8 0 = true.
Proof. vm_compute. reflexivity. Qed.

Lemma lin_level (c : Z) :
  0 <= c <= 255 ->
  (exists v, platform_pow libm_pow (channel_base c) 2.4 false = Ok v) ->
  exists v, lin libm_pow (channel_level c) = Ok v.
Proof.
  intros Hc [v Hv].
  pose proof (all_range_spec level_ok 8 0 c levels_ok
                ltac:(change (2 ^ Z.of_nat 8) with 256; lia)) as H.
  unfold level_ok in H. unfold lin.
  destruct (channel_level c <=? srgb_threshold)%float; [eauto|].
  cbv zeta in H. apply andb_prop in H as [H Hneg].
  apply andb_prop in H as [H Hz]. apply andb_prop in H as [Hnan Hinf].
  apply negb_true_iff in Hnan, Hinf, Hz, Hneg.
  change ((channel_level c + 0.055) / 1.055)%float with (channel_base c).
  rewrite float_pow_ordinary by assumption.
  destruct (channel_base c =? 1)%float; eauto.
Qed.

Lemma lin_spec (x v : float) :
  lin libm_pow x = Ok v -> spec_lin (python_pow libm_pow) x = v.
Proof.
  unfold lin, spec_lin, python_pow, srgb_threshold.
  destruct (x <=? 0.04045)%float; intro H; [congruence|].
  now rewrite H.
Qed.

Lemma normalize_level (c : Z) :
  0 <= c <= 255 -> normalize c = Ok (channel_level c).
Proof.
  intro Hc. unfold normalize, float_of_int, is_small.
  change (2 ^ 53) with 9007199254740992.
  destruct (Z.ltb_spec (Z.abs c) 9007199254740992) as [_|H]; [reflexivity|].
  lia.
Qed.

Lemma luminance_in_range (r g b : Z) :
  0 <= r <= 255 -> 0 <= g <= 255 -> 0 <= b <= 255 ->
  (forall c, 0 <= c <= 255 ->
     exists v, platform_pow libm_pow (channel_base c) 2.4 false = Ok v) ->
  luminance libm_pow (r, g, b)
  = Ok (relative_luminance (python_pow libm_pow) (r, g, b)).
Proof.
  intros Hr Hg Hb Hpow. unfold luminance, relative_luminance.
  rewrite !normalize_level by assumption. cbn [bind].
  destruct (lin_level r Hr (Hpow r Hr)) as [vr Er].
  destruct (lin_level g Hg (Hpow g Hg)) as [vg Eg].
  destruct (lin_level b Hb (Hpow b Hb)) as [vb Eb].
  rewrite Er, Eg, Eb. cbn [bind].
  now rewrite (lin_spec _ _ Er), (lin_spec _ _ Eg), (lin_spec _ _ Eb).
Qed.

End ClassifierFacts.


Lemma square_pow_levels : all_range square_pow_ok 8 0 = true.
Proof. vm_compute. reflexivity. Qed.


(** ** The whole program *)

(** What a run can end with: a classification and status 0, [unknown]
    and status 2, or an exception that nobody catches. *)
Lemma main_outcomes (ICANON ECHO : Z)
    (libm_pow : float -> float -> float * errno) (t : terminal) :
  let o := main ICANON ECHO libm_pow t in
  o = {| stdout := "dark"; exit_status := 0 |}
  \/ o = {| stdout := "light"; exit_status := 0 |}
  \/ o = {| stdout := "unknown"; exit_status := 2 |}
  \/ o = uncaught.
Proof.
  unfold main, report.
  destruct (fst (query_bg_from_terminal ICANON ECHO t (boot t)))
    as [[s|]|e]; cbn [bind]; auto.
  destruct (is_empty s); cbn [bind]; auto.
  destruct (parse_rgb s) as [[c|]|e]; cbn [bind]; auto.
  destruct (luminance libm_pow c) as [lum|e]; cbn [bind]; auto.
  destruct (lum <? DARK_THRESHOLD)%float; auto.
Qed.

(** C10.  When the payload found after the OSC 11 marker of the raw reply
    is empty, the run writes [unknown] and ends with status 2, as it does
    when there is no reply at all. *)
Theorem empty_payload_is_unknown (ICANON ECHO : Z)
    (libm_pow : float -> float -> float * errno) (t : terminal)
    (buf : string) :
  fst (query_bg_from_terminal ICANON ECHO t (boot t))
  = Ok (extract_reply buf) ->
  re_search_osc11 buf = Some EmptyString ->
  main ICANON ECHO libm_pow t = {| stdout := "unknown"; exit_status := 2 |}
  /\ report libm_pow (extract_reply buf) = report libm_pow None.
Proof.
  intros Hq Hp. unfold main. rewrite Hq. unfold extract_reply.
  rewrite Hp. split; reflexivity.
Qed.

Lemma empty_payload_is_unknown_witness :
  main 2 8 square_pow (tty_replying (osc11_reply ""))
  = {| stdout := "unknown"; exit_status := 2 |}.
Proof.
  exact (proj1 (empty_payload_is_unknown 2 8 square_pow
                  (tty_replying (osc11_reply "")) (osc11_reply "")
                  eq_refl eq_refl)).
Defined.

(** C2, on the code.  A reply whose colour has a non-hex digit, and a
    failing write, each end the run with an exception that nobody
    catches: nothing on standard output and status 1. *)
Theorem uncaught_exception_exits_1 (ICANON ECHO : Z)
    (libm_pow : float -> float -> float * errno) :
  main ICANON ECHO libm_pow (tty_replying (osc11_reply "rgb:zz/00/00"))
  = {| stdout := ""; exit_status := 1 |}
  /\ main ICANON ECHO libm_pow tty_write_fails
     = {| stdout := ""; exit_status := 1 |}.
Proof. split; vm_compute; reflexivity. Qed.

(** The replies of the specification's examples. *)
Example main_examples :
  main 2 8 square_pow (tty_replying (osc11_reply "rgb:8080/8080/8080"))
  = {| stdout := "dark"; exit_status := 0 |}
  /\ main 2 8 square_pow (tty_replying (osc11_reply "#ffffff"))
     = {| stdout := "light"; exit_status := 0 |}
  /\ main 2 8 square_pow (tty_replying "no marker here")
     = {| stdout := "unknown"; exit_status := 2 |}
  /\ main 2 8 square_pow tty_silent
     = {| stdout := "unknown"; exit_status := 2 |}.
Proof. repeat split; vm_compute; reflexivity. Qed.

(** ** Worked examples of the parser *)

Example py_int_examples :
  py_int " 1f " 16 = Ok 31 /\ py_int "+f" 16 = Ok 15
  /\ py_int "-1" 16 = Ok (-1) /\ py_int "1_0" 16 = Ok 16
  /\ py_int "0X_1f" 16 = Ok 31 /\ py_int "0x" 16 = Raise ValueError
  /\ py_int "_1" 16 = Raise ValueError /\ py_int "1__0" 16 = Raise ValueError
  /\ py_int "" 16 = Raise ValueError /\ py_int "1 f" 16 = Raise ValueError
  /\ py_int "0x1" 10 = Raise ValueError /\ py_int "56" 10 = Ok 56.
Proof. repeat split; reflexivity. Qed.

Example parse_rgb_examples :
  parse_rgb "rgb(12, 34, 56)" = Ok (Some (12, 34, 56))
  /\ parse_rgb "rgb(12,34)" = Ok None
  /\ parse_rgb "  rgb:11/22/33 /44" = Ok (Some (17, 34, 0))
  /\ parse_rgb "rgb:-1/+f/0x" = Raise ValueError
  /\ parse_rgb "rgb:-1/+f/1_0" = Ok (Some (-1, 15, 0))
  /\ parse_rgb "#12345" = Ok None.
Proof. repeat split; vm_compute; reflexivity. Qed.

(** * Further properties

    ** The extraction of lines 57 and 58 *)

Lemma drop_while_app (p : ascii -> bool) (w s : string) :
  all_chars p w = true -> drop_while p (w ++ s) = drop_while p s.
Proof.
  induction w as [|c w IH]; simpl; [reflexivity|].
  intro H. apply andb_true_iff in H as [Hc Hw]. rewrite Hc. now apply IH.
Qed.

Lemma take_while_app (p : ascii -> bool) (s : string) (c : ascii)
    (t : string) :
  all_chars p s = true -> p c = false ->
  take_while p (s ++ String c t) = s.
Proof.
  induction s as [|x s IH]; simpl; intros H Hc.
  - now rewrite Hc.
  - apply andb_true_iff in H as [Hx Hs]. rewrite Hx. f_equal. now apply IH.
Qed.

Lemma take_while_all (p : ascii -> bool) (s : string) :
  all_chars p s = true -> take_while p s = s.
Proof.
  induction s as [|x s IH]; simpl; [reflexivity|].
  intro H. apply andb_true_iff in H as [Hx Hs]. rewrite Hx. f_equal.
  now apply IH.
Qed.

Lemma all_chars_take_while (p : ascii -> bool) (s : string) :
  all_chars p (take_while p s) = true.
Proof.
  induction s as [|x s IH]; simpl; [reflexivity|].
  destruct (p x) eqn:E; simpl; [now rewrite E|reflexivity].
Qed.

Lemma all_chars_weaken (p q : ascii -> bool) (s : string) :
  (forall c, p c = true -> q c = true) ->
  all_chars p s = true -> all_chars q s = true.
Proof.
  intro Hpq. induction s as [|x s IH]; simpl; [reflexivity|].
  intro H. apply andb_true_iff in H as [Hx Hs].
  now rewrite (Hpq _ Hx), IH.
Qed.

Lemma decode_ascii_id (s : string) :
  all_chars payload_char s = true -> decode_ascii_ignore s = s.
Proof.
  induction s as [|x s IH]; simpl; [reflexivity|].
  intro H. apply andb_true_iff in H as [Hx Hs].
  unfold payload_char in Hx. apply andb_true_iff in Hx as [Hx _].
  rewrite Hx. f_equal. now apply IH.
Qed.

Lemma decode_ascii_payload (s : string) :
  all_chars not_terminator s = true ->
  all_chars payload_char (decode_ascii_ignore s) = true.
Proof.
  induction s as [|x s IH]; simpl; [reflexivity|].
  intro H. apply andb_true_iff in H as [Hx Hs].
  destruct (ord x <? 128) eqn:E; [|now apply IH].
  simpl. unfold payload_char at 1. rewrite E, Hx. now apply IH.
Qed.

Lemma re_match_osc11_other (c : ascii) (r : string) :
  Ascii.eqb c "]" = false -> re_match_osc11 (String c r) = None.
Proof. each_char c; intro H; try reflexivity; discriminate H. Qed.

Lemma re_match_osc11_bracket (r : string) :
  re_match_osc11 (String "]" r)
  = let r := drop_while Py_ISSPACE r in
    if startswith r "11;" then Some (take_while not_terminator (drop 3 r))
    else None.
Proof. reflexivity. Qed.

Lemma re_search_osc11_step (s : string) :
  re_search_osc11 s
  = match re_match_osc11 s with
    | Some g => Some g
    | None => match s with
              | EmptyString => None
              | String _ r => re_search_osc11 r
              end
    end.
Proof. destruct s; reflexivity. Qed.

Lemma re_search_skip (junk s : string) :
  all_chars not_bracket junk = true ->
  re_search_osc11 (junk ++ s) = re_search_osc11 s.
Proof.
  induction junk as [|c junk IH]; [reflexivity|].
  intro H. cbn [all_chars] in H. apply andb_true_iff in H as [Hc Hj].
  cbn [append]. rewrite re_search_osc11_step.
  rewrite re_match_osc11_other
    by (unfold not_bracket in Hc; now apply negb_true_iff in Hc).
  now apply IH.
Qed.

Lemma re_match_osc11_marker (ws rest : string) :
  all_chars Py_ISSPACE ws = true ->
  re_match_osc11 (String "]" (ws ++ "11;" ++ rest))
  = Some (take_while not_terminator rest).
Proof.
  intro Hw. rewrite re_match_osc11_bracket. cbv zeta.
  rewrite (drop_while_app _ _ _ Hw). reflexivity.
Qed.

Lemma payload_not_terminator (spec : string) :
  all_chars payload_char spec = true ->
  all_chars not_terminator spec = true.
Proof.
  apply all_chars_weaken. intros c H. unfold payload_char in H.
  now apply andb_true_iff in H as [_ H].
Qed.

Lemma extract_reply_terminated (junk ws spec rest : string) (t : ascii) :
  all_chars not_bracket junk = true ->
  all_chars Py_ISSPACE ws = true ->
  all_chars payload_char spec = true ->
  t = BEL \/ t = ESC ->
  extract_reply (junk ++ "]" ++ ws ++ "11;" ++ spec ++ String t rest)
  = Some spec.
Proof.
  intros Hj Hw Hs Ht. unfold extract_reply.
  rewrite (re_search_skip _ _ Hj).
  change ("]" ++ ws ++ "11;" ++ spec ++ String t rest)
    with (String "]" (ws ++ "11;" ++ spec ++ String t rest)).
  rewrite re_search_osc11_step, (re_match_osc11_marker _ _ Hw).
  rewrite take_while_app;
    [|now apply payload_not_terminator|destruct Ht; subst t; reflexivity].
  cbn [option_map]. now rewrite decode_ascii_id.
Qed.

(** X1.  Lines 57 and 58 give back the colour spec of a reply.  For a
    raw reply made of bytes without a closing bracket, then the bracket,
    white space, [11;], a spec of ASCII bytes other than BEL and ESC, and
    either a BEL or an ESC followed by anything, the extraction is that
    spec; it is the same when nothing follows the spec. *)
Theorem extract_reply_round_trip (junk ws spec rest : string) (t : ascii) :
  all_chars not_bracket junk = true ->
  all_chars Py_ISSPACE ws = true ->
  all_chars payload_char spec = true ->
  t = BEL \/ t = ESC ->
  extract_reply (junk ++ "]" ++ ws ++ "11;" ++ spec ++ String t rest)
  = Some spec
  /\ extract_reply (junk ++ "]" ++ ws ++ "11;" ++ spec) = Some spec.
Proof.
  intros Hj Hw Hs Ht. split; [now apply extract_reply_terminated|].
  unfold extract_reply. rewrite (re_search_skip _ _ Hj).
  change ("]" ++ ws ++ "11;" ++ spec)
    with (String "]" (ws ++ "11;" ++ spec)).
  rewrite re_search_osc11_step, (re_match_osc11_marker _ _ Hw).
  rewrite (take_while_all _ _ (payload_not_terminator _ Hs)).
  cbn [option_map]. now rewrite decode_ascii_id.
Qed.

Lemma extract_reply_round_trip_witness :
  extract_reply (osc11_reply "rgb:0000/0000/0000")
  = Some "rgb:0000/0000/0000".
Proof.
  apply (extract_reply_round_trip (String ESC "") "" "rgb:0000/0000/0000"
           "" BEL); try reflexivity.
  left. reflexivity.
Defined.

Lemma re_match_osc11_some (s g : string) :
  re_match_osc11 s = Some g ->
  exists ws rest,
    all_chars Py_ISSPACE ws = true
    /\ s = String "]" (ws ++ "11;" ++ rest)
    /\ g = take_while not_terminator rest.
Proof.
  destruct s as [|c r]; [discriminate|].
  destruct (Ascii.eqb c "]") eqn:E.
  - apply Ascii.eqb_eq in E. subst c. rewrite re_match_osc11_bracket.
    cbv zeta.
    assert (Hsplit : forall r, exists ws,
               all_chars Py_ISSPACE ws = true
               /\ r = ws ++ drop_while Py_ISSPACE r).
    { clear. induction r as [|c r [ws [Hw Hr]]].
      - exists "". split; reflexivity.
      - destruct (Py_ISSPACE c) eqn:E.
        + exists (String c ws). simpl. rewrite E, Hw. split; [reflexivity|].
          now rewrite <- Hr.
        + exists "". simpl. rewrite E. split; reflexivity. }
    destruct (Hsplit r) as [ws [Hw Hr]].
    destruct (drop_while Py_ISSPACE r) as [|a [|b [|c' rest]]] eqn:Ed;
      cbn [startswith]; rewrite ?andb_false_r; try discriminate.
    destruct (Ascii.eqb a "1") eqn:E1; [|discriminate].
    destruct (Ascii.eqb b "1") eqn:E2; [|discriminate].
    destruct (Ascii.eqb c' ";") eqn:E3; [|discriminate].
    apply Ascii.eqb_eq in E1, E2, E3. subst a b c'.
    cbn [andb drop]. intro H. injection H as <-.
    exists ws, rest. repeat split; [exact Hw|]. now rewrite Hr.
  - now rewrite re_match_osc11_other.
Qed.

Lemma re_search_osc11_some (s g : string) :
  re_search_osc11 s = Some g ->
  exists pre ws rest,
    all_chars Py_ISSPACE ws = true
    /\ s = pre ++ String "]" (ws ++ "11;" ++ rest)
    /\ g = take_while not_terminator rest.
Proof.
  induction s as [|c s IH]; rewrite re_search_osc11_step.
  - discriminate.
  - destruct (re_match_osc11 (String c s)) as [g'|] eqn:E.
    + intro H. injection H as <-.
      destruct (re_match_osc11_some _ _ E) as (ws & rest & Hw & Hs & Hg).
      exists "", ws, rest. repeat split; assumption.
    + intro H. destruct (IH H) as (pre & ws & rest & Hw & Hs & Hg).
      exists (String c pre), ws, rest. repeat split; try assumption.
      simpl. now rewrite Hs.
Qed.

Lemma re_search_osc11_marker (pre ws rest : string) :
  all_chars Py_ISSPACE ws = true ->
  re_search_osc11 (pre ++ String "]" (ws ++ "11;" ++ rest)) <> None.
Proof.
  intro Hw. induction pre as [|c pre IH].
  - change (re_search_osc11 (String "]" (ws ++ "11;" ++ rest)) <> None).
    rewrite re_search_osc11_step, (re_match_osc11_marker _ _ Hw).
    discriminate.
  - change (re_search_osc11
              (String c (pre ++ String "]" (ws ++ "11;" ++ rest))) <> None).
    rewrite re_search_osc11_step.
    destruct (re_match_osc11 _); [discriminate|exact IH].
Qed.

Lemma extract_reply_no_marker (buf : string) :
  ~ has_marker buf -> extract_reply buf = None.
Proof.
  unfold extract_reply, has_marker. intro H.
  destruct (re_search_osc11 buf) as [g|] eqn:E; [|reflexivity].
  exfalso. apply H.
  destruct (re_search_osc11_some _ _ E) as (pre & ws & rest & Hw & Hs & _).
  exists pre, ws, rest. split; assumption.
Qed.

(** X2.  The extraction finds nothing exactly when the raw reply holds
    no marker, that is no closing bracket followed by white space and
    [11;]. *)
Theorem extract_reply_none_iff (buf : string) :
  extract_reply buf = None <-> ~ has_marker buf.
Proof.
  split; [|apply extract_reply_no_marker].
  unfold extract_reply, has_marker.
  intros H (pre & ws & rest & Hw & ->).
  apply (re_search_osc11_marker pre ws rest Hw).
  destruct (re_search_osc11 _); [discriminate H|reflexivity].
Qed.

(** X3.  Whatever the raw reply, an extracted colour spec is made of
    ASCII bytes and holds neither BEL nor ESC. *)
Theorem extract_reply_payload (buf s : string) :
  extract_reply buf = Some s -> all_chars payload_char s = true.
Proof.
  unfold extract_reply. destruct (re_search_osc11 buf) as [g|] eqn:E;
    [|discriminate].
  cbn [option_map]. intro H. injection H as <-.
  destruct (re_search_osc11_some _ _ E) as (_ & _ & rest & _ & _ & ->).
  apply decode_ascii_payload, all_chars_take_while.
Qed.

Lemma extract_reply_payload_witness :
  all_chars payload_char "#1a2b3c" = true.
Proof.
  apply (extract_reply_payload (osc11_reply "#1a2b3c")). reflexivity.
Defined.

(** X4.  The test of line 52 holds exactly when the buffer has a BEL
    somewhere, or an ESC directly followed by a backslash; where the bytes
    lie in the buffer, and which read brought them, does not matter. *)
Theorem has_terminator_iff (buf : string) :
  has_terminator buf = true
  <-> exists a b, buf = a ++ String BEL b
                  \/ buf = a ++ String ESC (String "\" b).
Proof.
  unfold has_terminator. rewrite orb_true_iff, contains_byte_iff,
    contains_pair_iff.
  split.
  - intros [(a & b & H) | (a & b & H)]; exists a, b; [left | right]; exact H.
  - intros (a & b & [H | H]); [left | right]; exists a, b; exact H.
Qed.

(** ** The [rgb(R, G, B)] grammar *)

Lemma dec_char_plain (c : ascii) :
  is_decimal c = true ->
  Py_ISSPACE c = false /\ Py_UNICODE_ISSPACE c = false /\
  Ascii.eqb c "_" = false /\ 0 <= digit_value c < 10.
Proof.
  each_char c; intro H; vm_compute in H; try discriminate H;
    vm_compute; repeat split; congruence.
Qed.

Lemma dec_char_int_space (c : ascii) :
  is_decimal c = true -> int_space c = false.
Proof.
  each_char c; intro H; vm_compute in H; try discriminate H; reflexivity.
Qed.

Lemma scan_dec (s : string) : forall prev acc d,
  all_chars is_decimal s = true ->
  scan_digits 10 s prev acc d
  = Some (dec_value_from acc s, (d + String.length s)%nat,
          last_char prev s, EmptyString).
Proof.
  induction s as [|c s IH]; intros prev acc d H; simpl.
  - now rewrite Nat.add_0_r.
  - simpl in H. apply andb_prop in H as [Hc Hs].
    apply dec_char_plain in Hc as (_ & _ & _ & Hd).
    replace (digit_value c <? 10) with true by (symmetry; apply Z.ltb_lt; lia).
    rewrite IH by assumption.
    rewrite Nat.add_succ_r, (Z.mul_comm acc 10). reflexivity.
Qed.

Lemma last_char_dec (s : string) : forall c,
  is_decimal c = true -> all_chars is_decimal s = true ->
  is_decimal (last_char c s) = true.
Proof.
  induction s as [|c' s IH]; intros c Hc H; simpl; [assumption|].
  simpl in H. apply andb_prop in H as [Hc' Hs]. now apply IH.
Qed.

Lemma take_sign_dec (c : ascii) (r : string) :
  is_decimal c = true -> take_sign (String c r) = (1, String c r).
Proof.
  each_char c; intro H; vm_compute in H; try discriminate H; reflexivity.
Qed.

Lemma skip_radix_prefix_10 (x : string) : skip_radix_prefix 10 x = x.
Proof.
  destruct x as [|c [|c2 r]]; try reflexivity; each_char c; reflexivity.
Qed.

Lemma py_int_dec (x : string) :
  dec_token x -> py_int x 10 = Ok (dec_value x).
Proof.
  intros (Hall & Hne & Hlen). destruct x as [|c r]; [congruence|].
  pose proof Hall as H. simpl in H. apply andb_prop in H as [Hc Hr].
  pose proof (dec_char_plain c Hc) as (Hsp & _ & Hus & _).
  unfold py_int. cbn [drop_while].
  rewrite (dec_char_int_space c Hc), take_sign_dec by assumption.
  rewrite skip_radix_prefix_10.
  cbn [leading_underscore]. rewrite Hus, scan_dec by assumption.
  assert (Hlast : is_decimal (last_char "000" (String c r)) = true)
    by (simpl; now apply last_char_dec).
  apply dec_char_plain in Hlast as (_ & _ & Hl & _).
  rewrite Hl. cbn [String.length Nat.add Nat.eqb drop_while is_empty negb].
  change (is_binary_base 10) with false. cbn [negb andb].
  replace (int_max_str_digits <? S (String.length r))%nat with false
    by (symmetry; apply Nat.ltb_ge; exact Hlen).
  now rewrite Z.mul_1_l.
Qed.

Lemma drop_while_stop (p : ascii -> bool) (s : string) (c : ascii)
    (t : string) :
  all_chars p s = true -> p c = false ->
  drop_while p (s ++ String c t) = String c t.
Proof.
  intros Hs Hc. rewrite (drop_while_app _ _ _ Hs). simpl. now rewrite Hc.
Qed.

Lemma drop_while_space_dec (w x t : string) :
  all_chars Py_UNICODE_ISSPACE w = true ->
  all_chars is_decimal x = true -> x <> EmptyString ->
  drop_while Py_UNICODE_ISSPACE (w ++ x ++ t) = x ++ t.
Proof.
  intros Hw Hx Hne. rewrite (drop_while_app _ _ _ Hw).
  destruct x as [|c x]; [congruence|].
  simpl in Hx. apply andb_prop in Hx as [Hc _].
  apply dec_char_plain in Hc as (_ & Hc & _).
  simpl. now rewrite Hc.
Qed.

Lemma is_empty_false (s : string) : s <> EmptyString -> is_empty s = false.
Proof. destruct s; [congruence | reflexivity]. Qed.

Lemma re_match_rgb_call_decimal (r g b w1 w2 tail : string) :
  dec_token r -> dec_token g -> dec_token b ->
  all_chars Py_UNICODE_ISSPACE w1 = true ->
  all_chars Py_UNICODE_ISSPACE w2 = true ->
  re_match_rgb_call
    ("rgb(" ++ r ++ String "," (w1 ++ g ++ String "," (w2 ++ b
                                   ++ String ")" tail)))
  = Some (r, g, b).
Proof.
  intros (Hr & Nr & _) (Hg & Ng & _) (Hb & Nb & _) H1 H2.
  unfold re_match_rgb_call.
  change (startswith ("rgb(" ++ ?x) "rgb(") with true.
  change (drop 4 ("rgb(" ++ ?x)) with x. cbn [negb]. cbv zeta.
  rewrite (take_while_app is_decimal r) by (assumption || reflexivity).
  rewrite (drop_while_stop is_decimal r) by (assumption || reflexivity).
  cbv iota beta.
  rewrite (drop_while_space_dec w1 g) by assumption.
  rewrite (take_while_app is_decimal g) by (assumption || reflexivity).
  rewrite (drop_while_stop is_decimal g) by (assumption || reflexivity).
  cbv iota beta.
  rewrite (drop_while_space_dec w2 b) by assumption.
  rewrite (take_while_app is_decimal b) by (assumption || reflexivity).
  rewrite (drop_while_stop is_decimal b) by (assumption || reflexivity).
  cbv iota beta.
  now rewrite !is_empty_false by assumption.
Qed.

Lemma is_empty_app_cons (s : string) (c : ascii) (t : string) :
  is_empty (s ++ String c t) = false.
Proof. destruct s; reflexivity. Qed.

Lemma parse_rgb_call (body : string) :
  parse_rgb ("rgb(" ++ body)
  = match re_match_rgb_call ("rgb(" ++ rstrip body) with
    | Some (r, g, b) =>
        r' <- py_int r 10 ;; g' <- py_int g 10 ;; b' <- py_int b 10 ;;
        Ok (Some (r', g', b'))
    | None => Ok None
    end.
Proof.
  unfold parse_rgb, strip.
  replace (drop_while Py_UNICODE_ISSPACE ("rgb(" ++ body))
    with ("rgb(" ++ body) by reflexivity.
  rewrite (rstrip_idem_app "rgb(") by (reflexivity || discriminate).
  reflexivity.
Qed.

(** X5.  The decimal grammar of lines 85 to 88: [rgb(], three non-empty
    runs of decimal digits separated by a comma and optional white space,
    and a closing parenthesis, parse to the three decimal values.  The
    values are not clamped to 0..255 and whatever follows the parenthesis
    is ignored. *)
Theorem rgb_call_decimal (r g b w1 w2 tail : string) :
  dec_token r -> dec_token g -> dec_token b ->
  all_chars Py_UNICODE_ISSPACE w1 = true ->
  all_chars Py_UNICODE_ISSPACE w2 = true ->
  parse_rgb ("rgb(" ++ r ++ "," ++ w1 ++ g ++ "," ++ w2 ++ b ++ ")" ++ tail)
  = Ok (Some (dec_value r, dec_value g, dec_value b)).
Proof.
  intros Hr Hg Hb H1 H2.
  change ("rgb(" ++ r ++ "," ++ w1 ++ g ++ "," ++ w2 ++ b ++ ")" ++ tail)
    with ("rgb(" ++ (r ++ String "," (w1 ++ g ++ String "," (w2 ++ b
                                          ++ String ")" tail)))).
  rewrite parse_rgb_call.
  assert (E : rstrip (r ++ String "," (w1 ++ g ++ String "," (w2 ++ b
                                          ++ String ")" tail)))
              = r ++ String "," (w1 ++ g ++ String "," (w2 ++ b
                                          ++ String ")" (rstrip tail)))).
  { assert (E1 : rstrip (b ++ String ")" tail) = b ++ String ")" (rstrip tail))
      by (now apply rstrip_after).
    assert (E2 : rstrip (w2 ++ b ++ String ")" tail)
                 = w2 ++ b ++ String ")" (rstrip tail))
      by (rewrite rstrip_keeps; rewrite E1;
          [reflexivity | apply is_empty_app_cons]).
    assert (E3 : rstrip (g ++ String "," (w2 ++ b ++ String ")" tail))
                 = g ++ String "," (w2 ++ b ++ String ")" (rstrip tail)))
      by (rewrite rstrip_after by reflexivity; now rewrite E2).
    assert (E4 : rstrip (w1 ++ g ++ String "," (w2 ++ b ++ String ")" tail))
                 = w1 ++ g ++ String "," (w2 ++ b ++ String ")" (rstrip tail)))
      by (rewrite rstrip_keeps; rewrite E3;
          [reflexivity | apply is_empty_app_cons]).
    rewrite rstrip_after by reflexivity. now rewrite E4. }
  rewrite E, re_match_rgb_call_decimal by assumption.
  rewrite !py_int_dec by assumption. reflexivity.
Qed.

Lemma rgb_call_decimal_witness :
  parse_rgb "rgb(999, 0,300) and more" = Ok (Some (999, 0, 300)).
Proof.
  apply (rgb_call_decimal "999" "0" "300" " " "" " and more");
    try reflexivity;
    (split; [reflexivity | split; [discriminate | apply Nat.leb_le; reflexivity]]).
Defined.

(** ** White space around the colour spec *)

Lemma rstrip_space (w : string) :
  all_chars Py_UNICODE_ISSPACE w = true -> rstrip w = EmptyString.
Proof.
  induction w as [|c w IH]; simpl; [reflexivity|].
  intro H. apply andb_prop in H as [Hc Hw]. now rewrite IH, Hc.
Qed.

Lemma rstrip_app_space (s w : string) :
  all_chars Py_UNICODE_ISSPACE w = true -> rstrip (s ++ w) = rstrip s.
Proof.
  intro Hw. induction s as [|c s IH]; simpl.
  - now apply rstrip_space.
  - now rewrite IH.
Qed.

Lemma drop_while_app_r (p : ascii -> bool) (s w : string) :
  drop_while p (s ++ w)
  = if all_chars p s then drop_while p w else drop_while p s ++ w.
Proof.
  induction s as [|c s IH]; simpl; [reflexivity|].
  destruct (p c); [exact IH | reflexivity].
Qed.

Lemma drop_while_all (p : ascii -> bool) (s : string) :
  all_chars p s = true -> drop_while p s = EmptyString.
Proof.
  induction s as [|c s IH]; simpl; [reflexivity|].
  intro H. apply andb_prop in H as [Hc Hs]. rewrite Hc. now apply IH.
Qed.

Lemma strip_outer_space (w1 w2 s : string) :
  all_chars Py_UNICODE_ISSPACE w1 = true ->
  all_chars Py_UNICODE_ISSPACE w2 = true ->
  strip (w1 ++ s ++ w2) = strip s.
Proof.
  intros H1 H2. unfold strip. rewrite (drop_while_app _ _ _ H1).
  rewrite drop_while_app_r.
  destruct (all_chars Py_UNICODE_ISSPACE s) eqn:E.
  - now rewrite !drop_while_all.
  - now apply rstrip_app_space.
Qed.

(** X6.  White space around the colour spec does not change the result
    of [parse_rgb] (line 71). *)
Theorem parse_rgb_ignores_outer_space (w1 w2 s : string) :
  all_chars Py_UNICODE_ISSPACE w1 = true ->
  all_chars Py_UNICODE_ISSPACE w2 = true ->
  parse_rgb (w1 ++ s ++ w2) = parse_rgb s.
Proof.
  intros H1 H2. unfold parse_rgb. now rewrite strip_outer_space.
Qed.

Lemma parse_rgb_ignores_outer_space_witness :
  parse_rgb "  #1a2b3c
" = parse_rgb "#1a2b3c".
Proof.
  apply (parse_rgb_ignores_outer_space "  " "
" "#1a2b3c"); reflexivity.
Defined.

(** ** [#] and a length other than 7 or 9 *)

(** X7.  A string that starts with [#] parses to no colour exactly when
    its length, trailing white space apart, is neither 7 nor 9: the
    three-digit form [#rgb] is not a colour, and a string of length 7 or 9
    gives a triple or an exception, never the absence value. *)
Theorem hash_none_iff_other_length (body : string) :
  parse_rgb ("#" ++ body) = Ok None
  <-> String.length (rstrip body) <> 6%nat
      /\ String.length (rstrip body) <> 8%nat.
Proof.
  unfold parse_rgb, strip. cbn [append drop_while].
  change (Py_UNICODE_ISSPACE "#") with false. cbv iota.
  rewrite rstrip_plain by reflexivity.
  set (t := rstrip body).
  change (startswith (String "#" t) "rgb:") with false.
  change (startswith (String "#" t) "rgba:") with false.
  change (startswith (String "#" t) "#") with true.
  cbn [orb andb String.length].
  change (S (String.length t) =? 7)%nat with (String.length t =? 6)%nat.
  change (S (String.length t) =? 9)%nat with (String.length t =? 8)%nat.
  destruct (String.length t =? 6)%nat eqn:E6;
    [|destruct (String.length t =? 8)%nat eqn:E8]; cbn [orb].
  - apply Nat.eqb_eq in E6. split; [|tauto].
    destruct (py_int _ 16); [|discriminate].
    destruct (py_int _ 16); [|discriminate].
    destruct (py_int _ 16); discriminate.
  - apply Nat.eqb_eq in E8. split; [|tauto].
    destruct (py_int _ 16); [|discriminate].
    destruct (py_int _ 16); [|discriminate].
    destruct (py_int _ 16); discriminate.
  - apply Nat.eqb_neq in E6, E8.
    change (re_match_rgb_call (String "#" t)) with (@None (string * string * string)).
    tauto.
Qed.

(** ** Round trips *)

Lemma hex2_all : all_range hex2_ok 8 0 = true.
Proof. vm_compute. reflexivity. Qed.

Lemma widen_all : all_range widen_ok 8 0 = true.
Proof. vm_compute. reflexivity. Qed.

Lemma hex2_token (n : Z) :
  0 <= n <= 255 -> hex_token 2 (hex2 n) /\ hex_value (hex2 n) = n.
Proof.
  intro H. pose proof (all_range_spec _ _ _ n hex2_all) as Hn.
  unfold hex2_ok in Hn. change (2 ^ Z.of_nat 8) with 256 in Hn.
  apply andb_prop in Hn as [Ha Hv]; [|lia].
  apply Z.eqb_eq in Hv. repeat split; assumption.
Qed.

Lemma hex_value_from_app (s t : string) : forall acc,
  hex_value_from acc (s ++ t) = hex_value_from (hex_value_from acc s) t.
Proof.
  induction s as [|c s IH]; intro acc; simpl; [reflexivity | apply IH].
Qed.

Lemma all_chars_app (p : ascii -> bool) (s t : string) :
  all_chars p (s ++ t) = all_chars p s && all_chars p t.
Proof.
  induction s as [|c s IH]; simpl; [reflexivity|].
  now rewrite IH, andb_assoc.
Qed.

Lemma hex4_token (n : Z) :
  0 <= n <= 65535 -> hex_token 4 (hex4 n) /\ hex_value (hex4 n) = n.
Proof.
  intro H. unfold hex4.
  pose proof (Z.div_mod n 256 ltac:(lia)) as Hdm.
  assert (Hlo : 0 <= n mod 256 <= 255)
    by (pose proof (Z.mod_pos_bound n 256); lia).
  assert (Hhi : 0 <= n / 256 <= 255) by lia.
  destruct (hex2_token _ Hhi) as [[Ah Lh] Vh].
  destruct (hex2_token _ Hlo) as [[Al Ll] Vl].
  split; [split|].
  - now rewrite all_chars_app, Ah, Al.
  - now rewrite length_app, Lh, Ll.
  - unfold hex_value in *. rewrite hex_value_from_app, Vh.
    assert (E : forall acc, hex_value_from acc (hex2 (n mod 256))
                            = 256 * acc + hex_value_from 0 (hex2 (n mod 256))).
    { intro acc. unfold hex2. cbn [hex_value_from]. lia. }
    rewrite E, Vl. lia.
Qed.

Lemma widen_byte (v : Z) : 0 <= v <= 255 -> scale16 (257 * v) = v.
Proof.
  intro H. pose proof (all_range_spec _ _ _ v widen_all) as Hn.
  unfold widen_ok in Hn. change (2 ^ Z.of_nat 8) with 256 in Hn.
  apply Z.eqb_eq, Hn. lia.
Qed.

Lemma h_hex4 (n : Z) :
  0 <= n <= 65535 -> h (hex4 n) = Ok (scale16 n).
Proof.
  intro H. destruct (hex4_token n H) as [Ht Hv].
  destruct (h_channel_value (hex4 n) (or_intror Ht)) as [E _].
  rewrite E. unfold channel_value. destruct Ht as [_ Hl].
  rewrite Hl, Hv. reflexivity.
Qed.

Lemma parse_rgb_widened (r g b : Z) :
  0 <= r <= 255 -> 0 <= g <= 255 -> 0 <= b <= 255 ->
  parse_rgb ("rgb:" ++ hex4 (257 * r) ++ "/" ++ hex4 (257 * g) ++ "/"
             ++ hex4 (257 * b))
  = Ok (Some (r, g, b)).
Proof.
  intros Hr Hg Hb.
  change ("rgb:" ++ hex4 (257 * r) ++ "/" ++ hex4 (257 * g) ++ "/"
              ++ hex4 (257 * b))
    with ("rgb:" ++ hex4 (257 * r)
            ++ String "/" (hex4 (257 * g) ++ String "/" (hex4 (257 * b)))).
  rewrite (parse_rgb_hex_tokens "rgb:" _ _ _ 4 4 4)
    by (try (now left); apply hex4_token; lia).
  unfold channels. rewrite !h_hex4 by lia.
  cbn [bind]. now rewrite !widen_byte by assumption.
Qed.

(** X8.  Every triple of bytes comes back from its three hex spellings:
    [#RRGGBB], [rgb:RR/GG/BB], and [rgb:RRRR/GGGG/BBBB] with each byte
    widened to 16 bits by repeating it. *)
Theorem byte_triple_round_trip (r g b : Z) :
  0 <= r <= 255 -> 0 <= g <= 255 -> 0 <= b <= 255 ->
  parse_rgb ("#" ++ hex2 r ++ hex2 g ++ hex2 b) = Ok (Some (r, g, b))
  /\ parse_rgb ("rgb:" ++ hex2 r ++ "/" ++ hex2 g ++ "/" ++ hex2 b)
     = Ok (Some (r, g, b))
  /\ parse_rgb ("rgb:" ++ hex4 (257 * r) ++ "/" ++ hex4 (257 * g) ++ "/"
                ++ hex4 (257 * b))
     = Ok (Some (r, g, b)).
Proof.
  intros Hr Hg Hb.
  destruct (hex2_token r Hr) as [Tr Vr].
  destruct (hex2_token g Hg) as [Tg Vg].
  destruct (hex2_token b Hb) as [Tb Vb].
  split; [|split].
  - pose proof (parse_rgb_hash (hex2 r) (hex2 g) (hex2 b) "" Tr Tg Tb
                  (or_introl eq_refl)) as E.
    rewrite (append_empty_r (hex2 b)) in E. rewrite E, Vr, Vg, Vb.
    reflexivity.
  - change ("rgb:" ++ hex2 r ++ "/" ++ hex2 g ++ "/" ++ hex2 b)
      with ("rgb:" ++ hex2 r ++ String "/" (hex2 g ++ String "/" (hex2 b))).
    rewrite (parse_rgb_hex_tokens "rgb:" _ _ _ 2 2 2)
      by (assumption || now left).
    unfold channels. rewrite !h_two_digits by assumption.
    cbn [bind]. now rewrite Vr, Vg, Vb.
  - now apply parse_rgb_widened.
Qed.

Lemma byte_triple_round_trip_witness :
  parse_rgb "#1a2b3c" = Ok (Some (26, 43, 60))
  /\ parse_rgb "rgb:1a/2b/3c" = Ok (Some (26, 43, 60))
  /\ parse_rgb "rgb:1a1a/2b2b/3c3c" = Ok (Some (26, 43, 60)).
Proof.
  apply (byte_triple_round_trip 26 43 60); lia.
Defined.

(** ** The calls of the probe *)

Lemma rounds_app (n m : nat) (a b : list event) :
  rounds n a -> rounds m b -> rounds (n + m) (a ++ b)%list.
Proof.
  intros Ha Hb. induction Ha; cbn [app Nat.add]; [assumption| |];
    constructor; assumption.
Qed.

Lemma rounds_snoc_wait (n : nat) (ys : list event) :
  rounds n ys -> rounds (S n) (ys ++ [EvSelect 0.02%float])%list.
Proof.
  intro H. rewrite <- Nat.add_1_r. apply rounds_app; [exact H|].
  repeat constructor.
Qed.

Lemma rounds_snoc_read (n : nat) (ys : list event) :
  rounds n ys ->
  rounds (S n) (ys ++ [EvRead 4096; EvSelect 0.02%float])%list.
Proof.
  intro H. rewrite <- Nat.add_1_r. apply rounds_app; [exact H|].
  repeat constructor.
Qed.

Lemma poll_loop_rounds (t : terminal) (n : nat) : forall i d,
  exists ys,
    calls (snd (poll_loop t n i (collected t i) d)) = (ys ++ calls d)%list
    /\ rounds (polls t n i) ys
    /\ dev_mode (snd (poll_loop t n i (collected t i) d)) = dev_mode d.
Proof.
  unfold calls. induction n as [|n IH]; intros i d.
  - exists []. repeat split; constructor.
  - cbn [poll_loop polls]. unfold io_bind, select, os_read.
    destruct (tty_poll t i) as [|[b|]|] eqn:E; cbn [negb].
    + destruct (IH (S i) (log (EvSelect 0.02) d)) as (ys & Hl & Hr & Hm).
      rewrite (collected_not_ready t i E) in *.
      exists (ys ++ [EvSelect 0.02%float])%list.
      rewrite Hl, Hm. cbn [log dev_log dev_mode map fst].
      rewrite <- app_assoc.
      split; [reflexivity|]. split; [|reflexivity].
      now apply rounds_snoc_wait.
    + rewrite <- (collected_data t i b E).
      destruct (has_terminator (collected t (S i))).
      * exists [EvRead 4096; EvSelect 0.02%float].
        cbn [ret snd log dev_log dev_mode map fst app].
        split; [reflexivity|]. split; [|reflexivity]. repeat constructor.
      * destruct (IH (S i) (log (EvRead 4096) (log (EvSelect 0.02) d)))
          as (ys & Hl & Hr & Hm).
        exists (ys ++ [EvRead 4096; EvSelect 0.02%float])%list.
        rewrite Hl, Hm. cbn [log dev_log dev_mode map fst].
        rewrite <- app_assoc.
        split; [reflexivity|]. split; [|reflexivity].
        now apply rounds_snoc_read.
    + exists [EvRead 4096; EvSelect 0.02%float].
      cbn [snd log dev_log dev_mode map fst app].
      split; [reflexivity|]. split; [|reflexivity]. repeat constructor.
    + exists [EvSelect 0.02%float].
      cbn [snd log dev_log dev_mode map fst app].
      split; [reflexivity|]. split; [|reflexivity]. repeat constructor.
Qed.

Lemma exchange_rounds (t : terminal) (d : device) :
  exists ys,
    calls (snd (exchange t d))
    = (ys ++ EvWrite osc11_query :: calls d)%list
    /\ rounds (if tty_write_ok t then polls t 100 0 else 0%nat) ys
    /\ dev_mode (snd (exchange t d)) = dev_mode d.
Proof.
  unfold exchange. generalize 100%nat. intro n.
  unfold io_bind, os_write.
  destruct (tty_write_ok t); cbv beta iota zeta.
  - destruct (poll_loop_rounds t n 0 (log (EvWrite osc11_query) d))
      as (ys & Hl & Hr & Hm).
    change (collected t 0) with EmptyString in *.
    exists ys. rewrite Hl, Hm. repeat split. exact Hr.
  - exists []. repeat split. constructor.
Qed.

(** With no fault the two embeddings of the probe are one. *)
Lemma faulty_no_faults (ICANON ECHO : Z) (t : terminal) (d : device) :
  Faulty.query_bg_from_terminal ICANON ECHO no_faults t d
  = query_bg_from_terminal ICANON ECHO t d.
Proof. reflexivity. Qed.

Lemma faulty_query_unfold (ICANON ECHO : Z) (f : faults) (t : terminal)
    (d : device) :
  Faulty.query_bg_from_terminal ICANON ECHO f t d
  = if tty_opens t then
      let d1 := log EvOpen {| dev_mode := dev_mode d; dev_open := true;
                              dev_log := dev_log d |} in
      match Faulty.probe ICANON ECHO f t d1 with
      | (Ok buf, d2) => (Ok (extract_reply buf), d2)
      | (Raise e, d2) => (Raise e, d2)
      end
    else (Ok None, d).
Proof.
  unfold Faulty.query_bg_from_terminal, os_open, io_bind, ret.
  destruct (tty_opens t); reflexivity.
Qed.

(** X9.  When the device opens and the first two calls of [termios]
    succeed, the calls of the probe are, in order: open, set the raw
    mode, one write of the OSC 11 query, the rounds of the polling loop
    (a wait of 0.02 s, followed or not by a read of up to 4096 bytes),
    as many as the waits of C8, so at most 100, and none when the write
    fails, then the call that sets the captured mode.  [close] is called
    exactly when that last call does not raise: when it raises, the
    function leaves the descriptor open and the terminal in the raw
    mode. *)
Theorem probe_call_sequence (ICANON ECHO : Z) (f : faults) (t : terminal)
    (d : device) :
  tty_opens t = true ->
  getattr_fails f = false -> set_raw_fails f = false ->
  let old := dev_mode d in
  let raw := raw_mode ICANON ECHO old in
  let d' := snd (Faulty.query_bg_from_terminal ICANON ECHO f t d) in
  let n := if tty_write_ok t then polls t 100 0 else 0%nat in
  (n <= 100)%nat
  /\ dev_mode d' = (if restore_fails f then raw else old)
  /\ exists ys,
       rounds n ys
       /\ calls d'
          = ((if restore_fails f then [] else [EvClose])
             ++ EvSetAttr old :: ys
             ++ EvWrite osc11_query :: EvSetAttr raw :: EvOpen
             :: calls d)%list.
Proof.
  intros Ho Hg Hs old raw d' n. subst d'. split.
  - subst n. destruct (tty_write_ok t); [apply polls_le | apply Nat.le_0_l].
  - rewrite faulty_query_unfold, Ho. cbv zeta.
    set (d1 := log EvOpen _).
    assert (H : dev_mode (snd (Faulty.probe ICANON ECHO f t d1))
                = (if restore_fails f then raw else old)
                /\ exists ys,
                     rounds n ys
                     /\ calls (snd (Faulty.probe ICANON ECHO f t d1))
                        = ((if restore_fails f then [] else [EvClose])
                           ++ EvSetAttr old :: ys
                           ++ EvWrite osc11_query :: EvSetAttr raw :: EvOpen
                           :: calls d)%list).
    { unfold Faulty.probe, io_bind, Faulty.tcgetattr, Faulty.tcsetattr,
        try_finally, Faulty.os_close.
      rewrite Hg, Hs. change (dev_mode d1) with old. fold raw.
      set (d2 := {| dev_mode := raw; dev_open := dev_open d1;
                    dev_log := (EvSetAttr raw, old) :: dev_log d1 |}).
      destruct (exchange_rounds t d2) as (ys & Hl & Hr & Hm).
      fold n in Hr.
      destruct (exchange t d2) as [r d3]. cbn [snd] in *.
      change (dev_mode d2) with raw in Hm.
      unfold calls in *.
      destruct (restore_fails f); [|destruct (close_fails f)];
        cbn [snd log dev_log dev_mode map fst app];
        (split; [first [exact Hm | reflexivity]|]);
        exists ys; (split; [exact Hr|]); rewrite Hl; reflexivity. }
    destruct (Faulty.probe ICANON ECHO f t d1) as [[buf|e] d2]; exact H.
Qed.

Lemma probe_call_sequence_witness :
  dev_mode (snd (Faulty.query_bg_from_terminal 2 8
                   {| getattr_fails := false; set_raw_fails := false;
                      restore_fails := true; close_fails := false |}
                   (tty_replying (osc11_reply "#000000"))
                   (boot (tty_replying (osc11_reply "#000000")))))
  = raw_mode 2 8 sample_attr.
Proof.
  exact (proj1 (proj2 (probe_call_sequence 2 8
                         {| getattr_fails := false; set_raw_fails := false;
                            restore_fails := true; close_fails := false |}
                         (tty_replying (osc11_reply "#000000"))
                         (boot (tty_replying (osc11_reply "#000000")))
                         eq_refl eq_refl eq_refl))).
Defined.

(** ** Failures of the probe *)

Lemma probe_fst (ICANON ECHO : Z) (t : terminal) (d : device) :
  fst (probe ICANON ECHO t d)
  = if tty_write_ok t then
      fst (poll_loop t 100 0 EmptyString
             (log (EvWrite osc11_query)
                {| dev_mode := raw_mode ICANON ECHO (dev_mode d);
                   dev_open := dev_open d;
                   dev_log := (EvSetAttr (raw_mode ICANON ECHO (dev_mode d)),
                               dev_mode d) :: dev_log d |}))
    else Raise OSError.
Proof.
  unfold probe, exchange. generalize 100%nat. intro n.
  unfold io_bind, tcgetattr, tcsetattr, try_finally, os_close, os_write.
  destruct (tty_write_ok t); cbv beta iota zeta; [|reflexivity].
  destruct (poll_loop t n 0 EmptyString _) as [r d2]. reflexivity.
Qed.

Lemma query_fst (ICANON ECHO : Z) (t : terminal) (d : device) :
  fst (query_bg_from_terminal ICANON ECHO t d)
  = if tty_opens t then
      match fst (probe ICANON ECHO t
                   (log EvOpen {| dev_mode := dev_mode d; dev_open := true;
                                  dev_log := dev_log d |})) with
      | Ok buf => Ok (extract_reply buf)
      | Raise e => Raise e
      end
    else Ok None.
Proof.
  rewrite query_unfold. destruct (tty_opens t); [|reflexivity].
  cbv zeta. destruct (probe ICANON ECHO t _) as [[buf|e] d2]; reflexivity.
Qed.

Lemma poll_loop_returns (t : terminal) (n : nat) : forall i d,
  (exists b, fst (poll_loop t n i (collected t i) d) = Ok b)
  <-> (forall j, (i <= j < i + polls t n i)%nat ->
         poll_fails (tty_poll t j) = false).
Proof.
  induction n as [|n IH]; intros i d.
  - cbn [poll_loop polls ret fst]. split.
    + intros _ j Hj. lia.
    + intros _. eexists. reflexivity.
  - cbn [poll_loop polls]. unfold io_bind, select, os_read.
    destruct (tty_poll t i) as [|[b|]|] eqn:E; cbn [negb].
    + pose proof (IH (S i) (log (EvSelect 0.02) d)) as IH'.
      rewrite (collected_not_ready t i E) in IH'. split.
      * intros H j Hj. destruct (Nat.eq_dec j i) as [-> | Hne];
          [now rewrite E|].
        apply (proj1 IH' H). lia.
      * intro H. apply (proj2 IH'). intros j Hj. apply H. lia.
    + pose proof (IH (S i) (log (EvRead 4096) (log (EvSelect 0.02) d)))
        as IH'.
      rewrite (collected_data t i b E) in IH' |- *.
      destruct (has_terminator (collected t i ++ take 4096 b)).
      * cbn [ret fst]. split.
        -- intros _ j Hj. assert (j = i) by lia. subst j. now rewrite E.
        -- intros _. eexists. reflexivity.
      * split.
        -- intros H j Hj. destruct (Nat.eq_dec j i) as [-> | Hne];
             [now rewrite E|].
           apply (proj1 IH' H). lia.
        -- intro H. apply (proj2 IH'). intros j Hj. apply H. lia.
    + cbn [fst]. split.
      * intros [b H]. discriminate H.
      * intro H. specialize (H i ltac:(lia)). rewrite E in H. discriminate H.
    + cbn [fst]. split.
      * intros [b H]. discriminate H.
      * intro H. specialize (H i ltac:(lia)). rewrite E in H. discriminate H.
Qed.

Lemma exchange_returns (t : terminal) (d : device) :
  (exists b, fst (exchange t d) = Ok b)
  <-> tty_write_ok t = true
      /\ (forall j, (j < polls t 100 0)%nat ->
            poll_fails (tty_poll t j) = false).
Proof.
  unfold exchange. generalize 100%nat. intro n.
  unfold io_bind, os_write.
  destruct (tty_write_ok t); cbv beta iota zeta.
  - pose proof (poll_loop_returns t n 0 (log (EvWrite osc11_query) d)) as H.
    change (collected t 0) with EmptyString in H.
    rewrite Nat.add_0_l in H. split.
    + intro Hb. split; [reflexivity|]. intros j Hj.
      apply (proj1 H Hb). lia.
    + intros [_ Hok]. apply (proj2 H). intros j Hj. apply Hok. lia.
  - cbn [fst]. split.
    + intros [b H]. discriminate H.
    + intros [H _]. discriminate H.
Qed.

Lemma faulty_probe_fst (ICANON ECHO : Z) (f : faults) (t : terminal)
    (d : device) :
  exists d2,
    fst (Faulty.probe ICANON ECHO f t d)
    = if getattr_fails f then Raise TermiosError
      else if set_raw_fails f then Raise TermiosError
      else if restore_fails f then Raise TermiosError
      else if close_fails f then Raise OSError
      else fst (exchange t d2).
Proof.
  unfold Faulty.probe, io_bind, Faulty.tcgetattr, Faulty.tcsetattr,
    try_finally, Faulty.os_close.
  destruct (getattr_fails f); [exists d; reflexivity|].
  destruct (set_raw_fails f); [exists d; reflexivity|].
  match goal with
  | |- context [exchange t ?d0] => exists d0; destruct (exchange t d0) as [r d3]
  end.
  destruct (restore_fails f); [reflexivity|].
  destruct (close_fails f); reflexivity.
Qed.

Lemma faulty_query_fst (ICANON ECHO : Z) (f : faults) (t : terminal)
    (d : device) :
  tty_opens t = true ->
  exists d1,
    fst (Faulty.query_bg_from_terminal ICANON ECHO f t d)
    = match fst (Faulty.probe ICANON ECHO f t d1) with
      | Ok buf => Ok (extract_reply buf)
      | Raise e => Raise e
      end.
Proof.
  intro Ho. rewrite faulty_query_unfold, Ho. cbv zeta.
  match goal with
  | |- context [Faulty.probe ICANON ECHO f t ?d0] =>
      exists d0; destruct (Faulty.probe ICANON ECHO f t d0) as [[buf|e] d2]
  end; reflexivity.
Qed.

(** X10.  Only the failure of the open is caught.  Once the device is
    open, [query_bg_from_terminal] returns, with a string or with
    nothing, exactly when every call it makes succeeds: [tcgetattr], the
    two [tcsetattr], the write, each wait and read made by the loop, and
    the close; otherwise an exception leaves it. *)
Theorem failures_are_not_caught (ICANON ECHO : Z) (f : faults)
    (t : terminal) (d : device) :
  tty_opens t = true ->
  (exists r, fst (Faulty.query_bg_from_terminal ICANON ECHO f t d) = Ok r)
  <-> (getattr_fails f = false /\ set_raw_fails f = false
       /\ tty_write_ok t = true
       /\ (forall j, (j < polls t 100 0)%nat ->
             poll_fails (tty_poll t j) = false)
       /\ restore_fails f = false /\ close_fails f = false).
Proof.
  intro Ho.
  destruct (faulty_query_fst ICANON ECHO f t d Ho) as [d1 ->].
  destruct (faulty_probe_fst ICANON ECHO f t d1) as [d2 ->].
  pose proof (exchange_returns t d2) as Hx.
  destruct (getattr_fails f);
    [split; [intros [r H]; discriminate H | intros (H & _); discriminate H]|].
  destruct (set_raw_fails f);
    [split; [intros [r H]; discriminate H
            | intros (_ & H & _); discriminate H]|].
  destruct (restore_fails f);
    [split; [intros [r H]; discriminate H
            | intros (_ & _ & _ & _ & H & _); discriminate H]|].
  destruct (close_fails f);
    [split; [intros [r H]; discriminate H
            | intros (_ & _ & _ & _ & _ & H); discriminate H]|].
  split.
  - intros [r H].
    destruct (fst (exchange t d2)) as [buf|e]; [|discriminate H].
    destruct (proj1 Hx (ex_intro _ buf eq_refl)) as [Hw Hok].
    repeat split; assumption.
  - intros (_ & _ & Hw & Hok & _).
    destruct (proj2 Hx (conj Hw Hok)) as [b Hb]. rewrite Hb.
    eexists. reflexivity.
Qed.

Lemma failures_are_not_caught_witness :
  (exists r, fst (Faulty.query_bg_from_terminal 2 8 no_faults
                    (tty_replying (osc11_reply "#000000"))
                    (boot (tty_replying (osc11_reply "#000000")))) = Ok r)
  <-> (getattr_fails no_faults = false /\ set_raw_fails no_faults = false
       /\ tty_write_ok (tty_replying (osc11_reply "#000000")) = true
       /\ (forall j,
             (j < polls (tty_replying (osc11_reply "#000000")) 100 0)%nat ->
             poll_fails (tty_poll (tty_replying (osc11_reply "#000000")) j)
             = false)
       /\ restore_fails no_faults = false /\ close_fails no_faults = false).
Proof.
  apply (failures_are_not_caught 2 8 no_faults
           (tty_replying (osc11_reply "#000000"))
           (boot (tty_replying (osc11_reply "#000000")))).
  reflexivity.
Defined.



(** ** The size of the reply *)

Lemma take_length (k : nat) : forall s,
  (String.length (take k s) <= k)%nat.
Proof.
  induction k as [|k IH]; intros [|c s]; simpl; try lia.
  specialize (IH s). lia.
Qed.

Lemma poll_loop_length (t : terminal) (n : nat) : forall i buf d b,
  fst (poll_loop t n i buf d) = Ok b ->
  Z.of_nat (String.length b)
  <= Z.of_nat (String.length buf) + 4096 * Z.of_nat n.
Proof.
  induction n as [|n IH]; intros i buf d b.
  - cbn [poll_loop ret fst]. intro H. injection H as <-. lia.
  - cbn [poll_loop]. unfold io_bind, select, os_read.
    destruct (tty_poll t i) as [|[c|]|] eqn:E; cbn [negb];
      try discriminate.
    + intro H. apply IH in H. lia.
    + assert (Hc : Z.of_nat (String.length (buf ++ take 4096 c))
                   <= Z.of_nat (String.length buf) + 4096).
      { rewrite length_app. pose proof (take_length 4096 c) as Hk.
        apply Nat2Z.inj_le in Hk.
        change (Z.of_nat 4096) with 4096 in Hk. lia. }
      destruct (has_terminator (buf ++ take 4096 c)).
      * cbn [ret fst]. intro H.
        assert (Hb : buf ++ take 4096 c = b) by congruence.
        rewrite <- Hb. lia.
      * intro H. apply IH in H. lia.
Qed.

Lemma take_while_length (p : ascii -> bool) (s : string) :
  (String.length (take_while p s) <= String.length s)%nat.
Proof.
  induction s as [|c s IH]; simpl; [lia|]. destruct (p c); simpl; lia.
Qed.

Lemma decode_length (s : string) :
  (String.length (decode_ascii_ignore s) <= String.length s)%nat.
Proof.
  induction s as [|c s IH]; simpl; [lia|].
  destruct (ord c <? 128); simpl; lia.
Qed.

Lemma extract_reply_length (buf s : string) :
  extract_reply buf = Some s ->
  (String.length s + 4 <= String.length buf)%nat.
Proof.
  unfold extract_reply. destruct (re_search_osc11 buf) as [g|] eqn:E;
    [|discriminate].
  cbn [option_map]. intro H. injection H as <-.
  destruct (re_search_osc11_some _ _ E) as (pre & ws & rest & _ & -> & ->).
  pose proof (decode_length (take_while not_terminator rest)).
  pose proof (take_while_length not_terminator rest).
  rewrite length_app. cbn [String.length]. rewrite length_app.
  change (String.length ("11;" ++ rest)) with (3 + String.length rest)%nat.
  lia.
Qed.

(** X12.  The colour spec handed to the parser is bounded: 100 reads of
    at most 4096 bytes, less the four bytes of the marker. *)
Theorem reply_is_bounded (ICANON ECHO : Z) (t : terminal) (d : device)
    (s : string) :
  fst (query_bg_from_terminal ICANON ECHO t d) = Ok (Some s) ->
  Z.of_nat (String.length s) + 4 <= 409600.
Proof.
  rewrite query_fst. destruct (tty_opens t); [|discriminate].
  rewrite probe_fst. destruct (tty_write_ok t); [|discriminate].
  destruct (fst (poll_loop t 100 0 EmptyString _)) as [buf|e] eqn:E;
    [|discriminate].
  intro H. injection H as H. apply extract_reply_length in H.
  apply poll_loop_length in E. cbn [String.length] in E.
  change (Z.of_nat 100) with 100 in E. lia.
Qed.

Lemma reply_is_bounded_witness :
  Z.of_nat (String.length "#000000") + 4 <= 409600.
Proof.
  apply (reply_is_bounded 2 8 (tty_replying (osc11_reply "#000000"))
           (boot (tty_replying (osc11_reply "#000000")))).
  vm_compute. reflexivity.
Defined.

(** ** From the reply to the outcome *)

Lemma query_of_reply (ICANON ECHO : Z) (t : terminal)
    (junk ws spec rest : string) (term : ascii) :
  tty_opens t = true -> tty_write_ok t = true ->
  (forall j, (j < 100)%nat -> poll_fails (tty_poll t j) = false) ->
  collected t (polls t 100 0)
  = junk ++ "]" ++ ws ++ "11;" ++ spec ++ String term rest ->
  all_chars not_bracket junk = true ->
  all_chars Py_ISSPACE ws = true ->
  all_chars payload_char spec = true ->
  term = BEL \/ term = ESC ->
  fst (query_bg_from_terminal ICANON ECHO t (boot t)) = Ok (Some spec).
Proof.
  intros Ho Hw Hok Hc Hj Hs Hp Ht.
  rewrite query_fst, Ho, (probe_result ICANON ECHO t _ Hw Hok), Hc.
  now rewrite (extract_reply_terminated junk ws spec rest term).
Qed.

(** X13.  From the terminal to the outcome.  When the device opens and
    no call fails, and the bytes collected up to the end of the loop are a
    reply as in X1, the probe returns the colour spec of the reply, and
    the run ends as the module body does on that spec. *)
Theorem outcome_depends_on_payload (ICANON ECHO : Z)
    (libm_pow : float -> float -> float * errno) (t : terminal)
    (junk ws spec rest : string) (term : ascii) :
  tty_opens t = true -> tty_write_ok t = true ->
  (forall j, (j < 100)%nat -> poll_fails (tty_poll t j) = false) ->
  collected t (polls t 100 0)
  = junk ++ "]" ++ ws ++ "11;" ++ spec ++ String term rest ->
  all_chars not_bracket junk = true ->
  all_chars Py_ISSPACE ws = true ->
  all_chars payload_char spec = true ->
  term = BEL \/ term = ESC ->
  fst (query_bg_from_terminal ICANON ECHO t (boot t)) = Ok (Some spec)
  /\ main ICANON ECHO libm_pow t = finish (report libm_pow (Some spec)).
Proof.
  intros Ho Hw Hok Hc Hj Hs Hp Ht.
  pose proof (query_of_reply ICANON ECHO t junk ws spec rest term
                Ho Hw Hok Hc Hj Hs Hp Ht) as Hq.
  split; [exact Hq|]. unfold main. rewrite Hq. reflexivity.
Qed.

Lemma outcome_depends_on_payload_witness :
  main 2 8 square_pow (tty_replying (osc11_reply "#ffffff"))
  = finish (report square_pow (Some "#ffffff")).
Proof.
  refine (proj2 (outcome_depends_on_payload 2 8 square_pow
                   (tty_replying (osc11_reply "#ffffff"))
                   (String ESC "") "" "#ffffff" "" BEL
                   eq_refl eq_refl _ _ eq_refl eq_refl eq_refl
                   (or_introl eq_refl))).
  - intros j _. destruct j as [|[|[|j]]]; reflexivity.
  - vm_compute. reflexivity.
Defined.

(** X15.  Without a controlling terminal (lines 36 to 39) the probe
    returns nothing and leaves the device as it was: no call is made, and
    the run writes [unknown] with status 2. *)
Theorem no_tty_is_unknown (ICANON ECHO : Z)
    (libm_pow : float -> float -> float * errno) (t : terminal)
    (d : device) :
  tty_opens t = false ->
  query_bg_from_terminal ICANON ECHO t d = (Ok None, d)
  /\ main ICANON ECHO libm_pow t
     = {| stdout := "unknown"; exit_status := 2 |}.
Proof.
  intro Ho. split.
  - now rewrite query_unfold, Ho.
  - unfold main. now rewrite query_unfold, Ho.
Qed.

Lemma no_tty_is_unknown_witness :
  main 2 8 square_pow tty_absent
  = {| stdout := "unknown"; exit_status := 2 |}.
Proof.
  exact (proj2 (no_tty_is_unknown 2 8 square_pow tty_absent
                  (boot tty_absent) eq_refl)).
Defined.

(** ** The exceptions of [parse_rgb] *)

Lemma py_int_raises (x : string) (base : Z) (e : exn) :
  py_int x base = Raise e -> e = ValueError.
Proof.
  unfold py_int. destruct (take_sign _) as [sign s].
  destruct (leading_underscore _); [congruence|].
  destruct (scan_digits _ _ _ _ _) as [[[[n digits] prev] rest]|];
    [|congruence].
  repeat match goal with
         | |- context [if ?b then _ else _] => destruct b
         end; congruence.
Qed.

Lemma int_truediv_raises (n : Z) (e : exn) :
  int_truediv n 65535 = Raise e -> e = OverflowError.
Proof.
  unfold int_truediv. change (65535 =? 0) with false. cbv iota.
  destruct (is_small n && is_small 65535); [discriminate|].
  cbv zeta. destruct (is_infinity _); congruence.
Qed.

Lemma py_round_raises (x : float) (e : exn) :
  py_round x = Raise e -> e = ValueError \/ e = OverflowError.
Proof.
  unfold py_round. destruct (Prim2SF x); intro H; try discriminate H;
    injection H as <-; auto.
Qed.

Lemma h_raises (x : string) (e : exn) :
  h x = Raise e -> e = ValueError \/ e = OverflowError.
Proof.
  unfold h. destruct (py_int x 16) as [n|e'] eqn:E; cbn [bind].
  - destruct (_ =? _)%nat; [discriminate|].
    destruct (int_truediv n 65535) as [q|e'] eqn:Eq; cbn [bind].
    + apply py_round_raises.
    + intro H. injection H as <-. right. now apply (int_truediv_raises n).
  - intro H. injection H as <-. left. now apply (py_int_raises x 16).
Qed.

Lemma bind3_raises (P : exn -> Prop) (a b c : result Z) (e : exn) :
  (forall e, a = Raise e -> P e) -> (forall e, b = Raise e -> P e) ->
  (forall e, c = Raise e -> P e) ->
  (r' <- a ;; g' <- b ;; b' <- c ;; Ok (Some (r', g', b'))) = Raise e ->
  P e.
Proof.
  intros Ha Hb Hc.
  destruct a as [x|e1]; cbn [bind];
    [|intro H; injection H as <-; now apply Ha].
  destruct b as [y|e1]; cbn [bind];
    [|intro H; injection H as <-; now apply Hb].
  destruct c as [z|e1]; cbn [bind];
    [discriminate | intro H; injection H as <-; now apply Hc].
Qed.

Lemma startswith_app (p : string) : forall s,
  startswith s p = true -> exists t, s = p ++ t.
Proof.
  induction p as [|c p IH]; intros s; cbn [startswith].
  - intros _. now exists s.
  - destruct s as [|d s]; [discriminate|].
    intro H. apply andb_prop in H as [Hd Hs]. apply Ascii.eqb_eq in Hd.
    subst d. destruct (IH _ Hs) as [t ->]. now exists t.
Qed.

Lemma rgb_payload_raises (payload : string) (e : exn) :
  match firstn 3 (split "/" payload) with
  | [r; g; b] => r' <- h r ;; g' <- h g ;; b' <- h b ;; Ok (Some (r', g', b'))
  | _ => Raise ValueError
  end = Raise e ->
  e = ValueError \/ e = OverflowError.
Proof.
  destruct (firstn 3 (split "/" payload)) as [|r [|g [|b [|x l]]]];
    try (intro H; injection H as <-; now left).
  apply (bind3_raises (fun e => e = ValueError \/ e = OverflowError));
    intro e'; apply h_raises.
Qed.

(** X16.  The exceptions of [parse_rgb] are [ValueError] and
    [OverflowError]; it never raises [IndexError] (line 73),
    [ZeroDivisionError] or [TypeError]. *)
Theorem parse_rgb_raises (s : string) (e : exn) :
  parse_rgb s = Raise e -> e = ValueError \/ e = OverflowError.
Proof.
  unfold parse_rgb. generalize (strip s). intro u. cbv zeta.
  assert (Hint : forall x b e', py_int x b = Raise e' ->
                   e' = ValueError \/ e' = OverflowError)
    by (intros x b e' H; left; exact (py_int_raises x b e' H)).
  destruct (startswith u "rgb:") eqn:E1; cbn [orb].
  - destruct (startswith_app _ _ E1) as [p ->].
    change (nth_error (split1 ":" ("rgb:" ++ p)) 1) with (Some p).
    apply rgb_payload_raises.
  - destruct (startswith u "rgba:") eqn:E2.
    + destruct (startswith_app _ _ E2) as [p ->].
      change (nth_error (split1 ":" ("rgba:" ++ p)) 1) with (Some p).
      apply rgb_payload_raises.
    + destruct (startswith u "#" && _).
      * apply (bind3_raises (fun e => e = ValueError \/ e = OverflowError));
          intro e'; apply Hint.
      * destruct (re_match_rgb_call u) as [[[r g] b]|]; [|discriminate].
        apply (bind3_raises (fun e => e = ValueError \/ e = OverflowError));
          intro e'; apply Hint.
Qed.

Lemma parse_rgb_raises_witness :
  ValueError = ValueError \/ ValueError = OverflowError.
Proof.
  apply (parse_rgb_raises "rgb:zz/00/00" ValueError). reflexivity.
Defined.

(** Both exceptions occur: a digit that is not hex, a quotient too large
    for a float, a product that rounds to infinity. *)
Example parse_rgb_raises_examples :
  parse_rgb "rgb:zz/0/0" = Raise ValueError
  /\ parse_rgb ("rgb:" ++ replicate 300 "f" ++ "/0/0") = Raise OverflowError
  /\ parse_rgb ("rgb:" ++ replicate 259 "f" ++ "/0/0") = Raise OverflowError.
Proof. repeat split; vm_compute; reflexivity. Qed.

(** ** Signed tokens *)

Lemma h_signed_digit (c : ascii) :
  is_hex c = true ->
  h (String "-" (String c EmptyString)) = Ok (- digit_value c)
  /\ h (String "+" (String c EmptyString)) = Ok (digit_value c).
Proof.
  each_char c; intro H; vm_compute in H; try discriminate H;
    split; vm_compute; reflexivity.
Qed.

(** X17.  [int(x, 16)] accepts a sign, and a token of two characters is
    taken as it is: a first channel written as a minus sign and one hex
    digit parses to the negated digit, so a channel of the result can be
    negative. *)
Theorem signed_digit_channel (pre g b : string) (c : ascii) :
  pre = "rgb:" \/ pre = "rgba:" ->
  is_hex c = true ->
  hex_token 2 g \/ hex_token 4 g ->
  hex_token 2 b \/ hex_token 4 b ->
  parse_rgb (pre ++ "-" ++ String c "/" ++ g ++ "/" ++ b)
  = Ok (Some (- digit_value c, channel_value g, channel_value b))
  /\ - 15 <= - digit_value c <= 0.
Proof.
  intros Hpre Hc Hg Hb.
  destruct (h_channel_value g Hg) as [Eg _].
  destruct (h_channel_value b Hb) as [Eb _].
  destruct (h_signed_digit c Hc) as [Ec _].
  split.
  - change (pre ++ "-" ++ String c "/" ++ g ++ "/" ++ b)
      with (pre ++ String "-" (String c "") ++ String "/" (g ++ String "/" b)).
    rewrite parse_rgb_three; try assumption.
    + unfold channels. rewrite Ec, Eg, Eb. reflexivity.
    + apply hex_char_plain in Hc as (_ & _ & _ & _ & _ & _ & _ & Hs & _).
      unfold no_slash. cbn [all_chars]. now rewrite Hs.
    + apply hex_no_slash. destruct Hg as [[H _] | [H _]]; exact H.
    + apply hex_no_slash. destruct Hb as [[H _] | [H _]]; exact H.
    + apply rstrip_hex. destruct Hb as [[H _] | [H _]]; exact H.
  - apply hex_char_plain in Hc as (_ & _ & _ & _ & _ & _ & _ & _ & Hd). lia.
Qed.

Lemma signed_digit_channel_witness :
  parse_rgb "rgb:-f/00/ffff" = Ok (Some (- 15, 0, 255)).
Proof.
  refine (proj1 (signed_digit_channel "rgb:" "00" "ffff" "f"
                   (or_introl eq_refl) eq_refl
                   (or_introl (conj eq_refl eq_refl))
                   (or_intror (conj eq_refl eq_refl)))).
Defined.

(** ** The linear segment of [lin] *)






(** ** From the terminal to the word written *)

Lemma hex_payload_char (c : ascii) :
  is_hex c = true -> payload_char c = true.
Proof.
  each_char c; intro H; vm_compute in H; try discriminate H; reflexivity.
Qed.

Lemma widened_spec_payload (r g b : Z) :
  0 <= r <= 255 -> 0 <= g <= 255 -> 0 <= b <= 255 ->
  all_chars payload_char (widened_spec r g b) = true.
Proof.
  intros Hr Hg Hb.
  assert (H4 : forall v, 0 <= v <= 255 ->
                 all_chars payload_char (hex4 (257 * v)) = true).
  { intros v Hv. destruct (hex4_token (257 * v) ltac:(lia)) as [[Ha _] _].
    apply (all_chars_weaken is_hex); [apply hex_payload_char | exact Ha]. }
  unfold widened_spec.
  change ("rgb:" ++ hex4 (257 * r) ++ "/" ++ hex4 (257 * g) ++ "/"
          ++ hex4 (257 * b))
    with ("rgb:" ++ (hex4 (257 * r) ++ ("/" ++ (hex4 (257 * g) ++ ("/"
          ++ hex4 (257 * b)))))).
  rewrite !all_chars_app, !H4 by assumption. reflexivity.
Qed.

(** X19.  From the terminal to the word written.  When the device opens
    and no call fails, and the reply collected reports the background as
    [rgb:RRRR/GGGG/BBBB] with the bytes [r], [g], [b] each repeated, the
    run writes [dark] when the relative luminance of [(r, g, b)] is below
    0.5 and [light] otherwise, with status 0; the platform's [pow] is
    assumed to report no error on the 256 channel bases. *)
Theorem background_is_classified (ICANON ECHO : Z)
    (libm_pow : float -> float -> float * errno) (t : terminal)
    (junk ws rest : string) (term : ascii) (r g b : Z) :
  tty_opens t = true -> tty_write_ok t = true ->
  (forall j, (j < 100)%nat -> poll_fails (tty_poll t j) = false) ->
  collected t (polls t 100 0)
  = junk ++ "]" ++ ws ++ "11;" ++ widened_spec r g b ++ String term rest ->
  all_chars not_bracket junk = true ->
  all_chars Py_ISSPACE ws = true ->
  term = BEL \/ term = ESC ->
  0 <= r <= 255 -> 0 <= g <= 255 -> 0 <= b <= 255 ->
  (forall c, 0 <= c <= 255 ->
     exists v, platform_pow libm_pow (channel_base c) 2.4 false = Ok v) ->
  main ICANON ECHO libm_pow t
  = {| stdout := if (relative_luminance (python_pow libm_pow) (r, g, b)
                     <? 0.5)%float then "dark" else "light";
       exit_status := 0 |}.
Proof.
  intros Ho Hw Hok Hc Hj Hs Ht Hr Hg Hb Hpow.
  pose proof (query_of_reply ICANON ECHO t junk ws (widened_spec r g b) rest
                term Ho Hw Hok Hc Hj Hs
                (widened_spec_payload r g b Hr Hg Hb) Ht) as Hq.
  unfold main. rewrite Hq. unfold report.
  change (is_empty (widened_spec r g b)) with false. cbv iota.
  unfold widened_spec. rewrite parse_rgb_widened by assumption.
  cbn [bind]. rewrite (luminance_in_range libm_pow r g b) by assumption.
  reflexivity.
Qed.

Lemma background_is_classified_witness :
  main 2 8 square_pow (tty_replying (osc11_reply "rgb:8080/8080/8080"))
  = {| stdout := "dark"; exit_status := 0 |}.
Proof.
  assert (Hpow : forall c, 0 <= c <= 255 ->
            exists v, platform_pow square_pow (channel_base c) 2.4 false
                      = Ok v).
  { intros c Hc.
    pose proof (all_range_spec square_pow_ok 8 0 c square_pow_levels
                  ltac:(change (2 ^ Z.of_nat 8) with 256; lia)) as H.
    unfold square_pow_ok in H.
    destruct (platform_pow square_pow (channel_base c) 2.4 false);
      [eauto | discriminate]. }
  refine (background_is_classified 2 8 square_pow
            (tty_replying (osc11_reply "rgb:8080/8080/8080"))
            (String ESC "") "" "" BEL 128 128 128
            eq_refl eq_refl _ _ eq_refl eq_refl (or_introl eq_refl)
            _ _ _ Hpow); try lia.
  - intros j _. destruct j as [|[|[|j]]]; reflexivity.
  - vm_compute. reflexivity.
Defined.

(** X20.  When the device opens and no call fails, but the bytes
    collected hold no OSC 11 marker (nothing was received, or something
    else was), the probe returns nothing and the run writes [unknown]
    with status 2. *)
Theorem no_marker_is_unknown (ICANON ECHO : Z)
    (libm_pow : float -> float -> float * errno) (t : terminal) :
  tty_opens t = true -> tty_write_ok t = true ->
  (forall j, (j < 100)%nat -> poll_fails (tty_poll t j) = false) ->
  ~ has_marker (collected t (polls t 100 0)) ->
  fst (query_bg_from_terminal ICANON ECHO t (boot t)) = Ok None
  /\ main ICANON ECHO libm_pow t
     = {| stdout := "unknown"; exit_status := 2 |}.
Proof.
  intros Ho Hw Hok Hm.
  assert (Hq : fst (query_bg_from_terminal ICANON ECHO t (boot t))
               = Ok None).
  { rewrite query_fst, Ho, (probe_result ICANON ECHO t _ Hw Hok).
    now rewrite extract_reply_no_marker. }
  split; [exact Hq|]. unfold main. rewrite Hq. reflexivity.
Qed.

Lemma no_marker_is_unknown_witness :
  main 2 8 square_pow tty_silent
  = {| stdout := "unknown"; exit_status := 2 |}.
Proof.
  refine (proj2 (no_marker_is_unknown 2 8 square_pow tty_silent
                   eq_refl eq_refl _ _)).
  - intros j _. reflexivity.
  - replace (collected tty_silent (polls tty_silent 100 0))
      with EmptyString by (vm_compute; reflexivity).
    intros (pre & ws & rest & _ & H). destruct pre; discriminate H.
Defined.
